(** * BaselineAgent (src/agent/baseline.py): synthesis, extraction, execution

    A shallow embedding of the [BaselineAgent] class: the prompt
    construction, the clean-up of the model's answer (markdown fences),
    and the [analyze] orchestration with its two [exec] calls.

    Python [str] values are sequences of Unicode code points; they are
    modelled as [list N].  The external collaborators (the file system,
    [litellm.completion], the interpreter behind [exec]) are parameters. *)

From Stdlib Require Import NArith List Ascii String Lia QArith.
From stdpp Require Import gmap strings list fin_maps.

Set Default Proof Using "Type".

(** ** Python strings *)

Module PyStr.

(** A [str] is a sequence of code points. *)
Abbreviation pystr := (list N).

(** A literal of the source text, character by character. *)
Definition lit (s : string) : pystr :=
  map N_of_ascii (list_ascii_of_string s).

(** [s.startswith(sub)] *)
Fixpoint startswith (sub s : pystr) {struct sub} : bool :=
  match sub, s with
  | [], _ => true
  | _ :: _, [] => false
  | a :: sub', c :: s' => if N.eqb a c then startswith sub' s' else false
  end.

(** [sub in s]: [sub] occurs in [s] as a contiguous substring. *)
Fixpoint py_in (sub s : pystr) {struct s} : bool :=
  if startswith sub s then true
  else match s with
       | [] => false
       | _ :: s' => py_in sub s'
       end.

(** The text before and after the leftmost occurrence of [sep]
    (as [s.partition(sep)] computes it), if there is one. *)
Fixpoint cut (sep s : pystr) {struct s} : option (pystr * pystr) :=
  if startswith sep s then Some ([], drop (length sep) s)
  else match s with
       | [] => None
       | c :: s' =>
           match cut sep s' with
           | Some (b, a) => Some (c :: b, a)
           | None => None
           end
       end.

(** The pieces between the non-overlapping occurrences of a non-empty
    [sep], scanned left to right.  Every cut removes at least one
    character, so [length s] rounds are enough. *)
Fixpoint split_rounds (n : nat) (sep s : pystr) {struct n} : list pystr :=
  match n with
  | O => [s]
  | S n' =>
      match cut sep s with
      | None => [s]
      | Some (b, a) => b :: split_rounds n' sep a
      end
  end.

(** [s.split(sep)] for a non-empty separator. *)
Definition split (sep s : pystr) : list pystr :=
  split_rounds (length s) sep s.

(** The text before the leftmost occurrence of [sep], all of [s] if
    there is none: the first piece of [s.split(sep)]. *)
Definition before (sep s : pystr) : pystr :=
  match cut sep s with
  | Some (b, _) => b
  | None => s
  end.

(** [Py_UNICODE_ISSPACE]: the code points [str.strip()] removes. *)
Definition isspace (c : N) : bool :=
  ((9 <=? c) && (c <=? 13) || (28 <=? c) && (c <=? 32)
   || (c =? 133) || (c =? 160) || (c =? 5760)
   || (8192 <=? c) && (c <=? 8202)
   || (c =? 8232) || (c =? 8233) || (c =? 8239) || (c =? 8287)
   || (c =? 12288))%N.

Fixpoint lstrip (s : pystr) : pystr :=
  match s with
  | [] => []
  | c :: s' => if isspace c then lstrip s' else s
  end.

Definition rstrip (s : pystr) : pystr := rev (lstrip (rev s)).

(** [s.strip()] *)
Definition strip (s : pystr) : pystr := rstrip (lstrip s).

End PyStr.
Import PyStr.


(** ** Exceptions and outcomes *)

(** The exception classes that matter here.  The last three derive from
    [BaseException] only, so [except Exception] does not catch them. *)
Inductive ExnClass :=
  | FileNotFoundError
  | PermissionError
  | IsADirectoryError
  | UnicodeDecodeError
  | IndexError
  | KeyError
  | TypeError
  | ValueError
  | SyntaxError
  | NameError
  | LibraryError (name : pystr)
  | KeyboardInterrupt
  | SystemExit
  | GeneratorExit.

(** [issubclass(c, Exception)] *)
Definition is_Exception (c : ExnClass) : bool :=
  match c with
  | KeyboardInterrupt | SystemExit | GeneratorExit => false
  | _ => true
  end.

(** [issubclass(c, FileNotFoundError)] *)
Definition is_FileNotFoundError (c : ExnClass) : bool :=
  match c with
  | FileNotFoundError => true
  | _ => false
  end.

(** A raised exception: its class and [str(e)]. *)
Record PyExn := mkExn { exn_class : ExnClass; exn_str : pystr }.

(** A runtime fault, as opposed to an interrupt or an exit request. *)
Definition catchable (e : PyExn) : bool := is_Exception (exn_class e).

Inductive Outcome (A : Type) :=
  | Return (a : A)
  | Raise (e : PyExn).
Arguments Return {A} a.
Arguments Raise {A} e.

Definition obind {A B} (o : Outcome A) (k : A -> Outcome B) : Outcome B :=
  match o with
  | Return a => k a
  | Raise e => Raise e
  end.

Declare Scope py_scope.
Delimit Scope py_scope with py.
Notation "x <~ c ;; k" := (obind c (fun x => k))
  (at level 100, c at next level, right associativity) : py_scope.
Open Scope py_scope.

(** [l[i]] for a non-negative index. *)
Definition getitem {A} (l : list A) (i : nat) : Outcome A :=
  match l !! i with
  | Some x => Return x
  | None => Raise (mkExn IndexError (lit "list index out of range"))
  end.

(** ** Clean-up of the model's answer (lines 93-97 and 193-196) *)

Definition TAG : pystr := lit "```python".
Definition FENCE : pystr := lit "```".

Definition extract_code (code : pystr) : Outcome pystr :=
  if py_in TAG code then
    p <~ getitem (split TAG code) 1 ;;
    q <~ getitem (split FENCE p) 0 ;;
    Return (strip q)
  else if py_in FENCE code then
    p <~ getitem (split FENCE code) 1 ;;
    q <~ getitem (split FENCE p) 0 ;;
    Return (strip q)
  else Return code.

(** ** Prompts (lines 42-78 and 118-177) *)

Definition analysis_prompt (schema question : pystr) : pystr :=
  lit "
You are an expert Python data scientist. Generate Python code to answer the following question using pandas.

AVAILABLE DATA FILES:
- products.csv (load with: df_products = pd.read_csv('../data/products.csv'))
- customers.csv (load with: df_customers = pd.read_csv('../data/customers.csv'))
- orders.csv (load with: df_orders = pd.read_csv('../data/orders.csv'))

DATABASE SCHEMA:
"
  ++ schema ++ lit "

QUESTION: "
  ++ question ++ lit "

REQUIREMENTS:
1. Import pandas as pd and any other needed libraries
2. Load only the CSV files you need for this analysis
3. Write clear, efficient pandas code
4. Include comments explaining your approach
5. Print the final result
6. Handle any data type conversions if needed
7. Only output the Python code, no explanations before or after

Example format:
```python
import pandas as pd
import matplotlib.pyplot as plt

# Load data
df_products = pd.read_csv('../data/products.csv')

# Your analysis code here
result = df_products.groupby('product_category')['product_price'].mean()
print(result)
```

Generate the Python code:
".

Definition visualization_prompt (schema question : pystr) : pystr :=
  lit "
You are an expert Python data scientist creating visualizations for non-technical business users. Generate Python code to create the most appropriate visualization that answers the following question.

AVAILABLE DATA FILES:
- products.csv (load with: df_products = pd.read_csv('../data/products.csv'))
- customers.csv (load with: df_customers = pd.read_csv('../data/customers.csv'))
- orders.csv (load with: df_orders = pd.read_csv('../data/orders.csv'))

DATABASE SCHEMA:
"
  ++ schema ++ lit "

QUESTION: "
  ++ question ++ lit "

REQUIREMENTS:
1. Import pandas, matplotlib.pyplot, and seaborn
2. Load only the CSV files you need for this visualization
3. Process the data to answer the question
4. Automatically choose the BEST chart type for the data and question:
   - Bar charts for categorical comparisons (maintain DataFrame order by using the `order=` argument with Seaborn)
   - Line plots for trends over time
   - Pie charts for parts of a whole (max 6 categories)
   - Histograms for distributions
   - Scatter plots for relationships between variables
   - Box plots for statistical summaries
5. Add clear, business-friendly title and labels
6. Use colors and formatting that are professional and easy to read
7. Use `plt.show()` to display the chart
8. Annotate bar charts by matching annotation order to actual bar positions using `order=` in `sns.barplot()` or `ax.patches`
9. Make the chart accessible to non-technical users
10. Only output the Python code, no explanations before or after
11. Ensure labels and annotations do not overlap with the chart edges. If necessary, use plt.subplots_adjust(right=0.85) to create extra space for labels on the right or bbox positioning for tight text placement.
12.	If you add text labels using a loop, reset the DataFrame index or use enumerate() to avoid spacing/layout issues in the chart.
13. Set an appropriate figure size using `plt.figure(figsize=(width, height))`, where `height` scales with the number of bars (e.g., `len(df) * 0.6`) to prevent excessive whitespace.


Example format:
```python
import pandas as pd
import matplotlib.pyplot as plt
import seaborn as sns

# Load data
df_products = pd.read_csv('../data/products.csv')

# Process data for visualization
category_prices = df_products.groupby('product_category')['product_price'].mean()

# Create visualization
plt.figure(figsize=(10, 6))
category_prices.plot(kind='bar')
plt.title('Average Product Price by Category')
plt.xlabel('Product Category')
plt.ylabel('Average Price ($)')
plt.xticks(rotation=45)
plt.tight_layout()
plt.show()
```

Generate the Python visualization code:
".

(** ** Requests, responses, the agent *)

(** One entry of [messages]: [{"role": ..., "content": ...}]. *)
Record ChatMessage := mkChatMessage { role : pystr; content : pystr }.

(** The keyword arguments of [litellm.completion]; the temperature
    [0.1] is kept as the fraction it denotes. *)
Record Request := mkRequest {
  req_model : pystr;
  req_messages : list ChatMessage;
  req_temperature : Q }.

(** What the code reads of a response:
    [response['choices'][0]['message']['content']]; the content of an
    answer without text is [None]. *)
Record Choice := mkChoice { message_content : option pystr }.
Record Response := mkResponse { choices : list Choice }.

(** The attributes set by [__init__]. *)
Record BaselineAgent := mkAgent {
  model : pystr;
  schema_path : pystr;
  data_files : list (pystr * pystr) }.

Definition init (model : pystr) : BaselineAgent :=
  {| model := model;
     schema_path := lit "../data/schema.md";
     data_files :=
       [ (lit "products", lit "../data/products.csv");
         (lit "customers", lit "../data/customers.csv");
         (lit "orders", lit "../data/orders.csv") ] |}.

Definition default_model : pystr := lit "gpt-4.1-mini".

(** ** State *)

(** The globals dictionary handed to [exec]. *)
Abbreviation Namespace Value := (gmap pystr Value).

(** What one call of [analyze] reads and changes: the requests the
    completion backend has received, the [exec] invocations (source text
    and the globals at entry), and the two dictionaries [analyze] binds
    to local names and mutates in place. *)
Record State (Value : Type) := mkState {
  calls : list Request;
  runs : list (pystr * Namespace Value);
  result : gmap string pystr;
  exec_globals : Namespace Value }.
Arguments mkState {Value}.
Arguments calls {Value}.
Arguments runs {Value}.
Arguments result {Value}.
Arguments exec_globals {Value}.

(** Computations that read and change the state and may raise; what was
    changed before a raise stays changed. *)
Definition M (Value A : Type) : Type :=
  State Value -> Outcome A * State Value.

Definition ret {Value A} (a : A) : M Value A := fun s => (Return a, s).

Definition raise {Value A} (e : PyExn) : M Value A := fun s => (Raise e, s).

Definition bind {Value A B} (c : M Value A) (k : A -> M Value B) : M Value B :=
  fun s =>
    match c s with
    | (Return a, s') => k a s'
    | (Raise e, s') => (Raise e, s')
    end.

Definition lift {Value A} (o : Outcome A) : M Value A := fun s => (o, s).

(** [try: body / except C as e: handler e], for the class test [cls] of
    [C]; an exception of another class goes on to the caller. *)
Definition try_except {Value A} (cls : ExnClass -> bool)
    (body : M Value A) (handler : PyExn -> M Value A) : M Value A :=
  fun s =>
    match body s with
    | (Return a, s') => (Return a, s')
    | (Raise e, s') =>
        if cls (exn_class e) then handler e s' else (Raise e, s')
    end.

Notation "x <- c ;; k" := (bind c (fun x => k))
  (at level 100, c at next level, right associativity) : py_scope.
Notation "c ;;; k" := (bind c (fun _ => k))
  (at level 100, right associativity) : py_scope.

(** [result[key] = v] *)
Definition result_set {Value} (key : string) (v : pystr) : M Value unit :=
  fun s =>
    (Return tt,
     {| calls := calls s; runs := runs s;
        result := <[key := v]> (result s);
        exec_globals := exec_globals s |}).

(** [result = d] *)
Definition result_bind {Value} (d : gmap string pystr) : M Value unit :=
  fun s =>
    (Return tt,
     {| calls := calls s; runs := runs s; result := d;
        exec_globals := exec_globals s |}).

(** [result[key]] *)
Definition result_get {Value} (key : string) : M Value pystr :=
  fun s =>
    match result s !! key with
    | Some v => (Return v, s)
    | None =>
        (Raise (mkExn KeyError (lit "'" ++ lit key ++ lit "'")), s)
    end.

(** [exec_globals = {}] *)
Definition exec_globals_bind {Value} (g : Namespace Value) : M Value unit :=
  fun s =>
    (Return tt,
     {| calls := calls s; runs := runs s; result := result s;
        exec_globals := g |}).

(** [return result] *)
Definition result_read {Value} : M Value (gmap string pystr) :=
  fun s => (Return (result s), s).

(** The state after the backend has received [req]. *)
Definition log_call {Value} (req : Request) (s : State Value) : State Value :=
  {| calls := calls s ++ [req]; runs := runs s; result := result s;
     exec_globals := exec_globals s |}.

(** ** Sample collaborators *)

(** A file system holding a schema at the configured path only. *)
Definition schema_fs (schema : pystr) (path : pystr) : Outcome pystr :=
  if decide (path = lit "../data/schema.md") then Return schema
  else Raise (mkExn FileNotFoundError
                (lit "[Errno 2] No such file or directory: '" ++ path ++ lit "'")).

(** A file system without any file. *)
Definition empty_fs (path : pystr) : Outcome pystr :=
  Raise (mkExn FileNotFoundError
           (lit "[Errno 2] No such file or directory: '" ++ path ++ lit "'")).

(** A file system whose files cannot be read. *)
Definition locked_fs (path : pystr) : Outcome pystr :=
  Raise (mkExn PermissionError
           (lit "[Errno 13] Permission denied: '" ++ path ++ lit "'")).

(** A backend that is down. *)
Definition failing_backend (i : nat) (req : Request) : Outcome Response :=
  Raise (mkExn (LibraryError (lit "APIConnectionError")) (lit "Connection error.")).

(** A backend that gives the listed answers, call after call, and is
    down afterwards. *)
Definition scripted_backend (answers : list pystr) (i : nat) (req : Request)
    : Outcome Response :=
  match answers !! i with
  | Some a => Return (mkResponse [mkChoice (Some a)])
  | None => failing_backend i req
  end.

(** A toy interpreter over numbers: it knows one assignment and one use
    of the assigned name, and rejects every other text. *)
Definition toy_interp (code : pystr) (g : Namespace N)
    : Namespace N * option PyExn :=
  if startswith (lit "x = 1") code then (<[lit "x" := 1%N]> g, None)
  else if startswith (lit "print(x)") code then
    match g !! lit "x" with
    | Some _ => (g, None)
    | None => (g, Some (mkExn NameError (lit "name 'x' is not defined")))
    end
  else (g, Some (mkExn SyntaxError (lit "invalid syntax (<string>, line 1)"))).

Definition fresh {Value} : State Value :=
  {| calls := []; runs := []; result := ∅; exec_globals := ∅ |}.

(** An interpreter in which every text asks to leave: [exit()]. *)
Definition exiting_interp (code : pystr) (g : Namespace N)
    : Namespace N * option PyExn :=
  (g, Some (mkExn SystemExit (lit "None"))).

(** An interpreter that knows the one assignment and takes every other
    text as a request to leave. *)
Definition leaving_interp (code : pystr) (g : Namespace N)
    : Namespace N * option PyExn :=
  if startswith (lit "x = 1") code then (<[lit "x" := 1%N]> g, None)
  else (g, Some (mkExn SystemExit (lit "None"))).

(** A backend call interrupted from the keyboard. *)
Definition interrupted_backend (i : nat) (req : Request) : Outcome Response :=
  Raise (mkExn KeyboardInterrupt []).

(** A backend that answers without any choice. *)
Definition silent_backend (i : nat) (req : Request) : Outcome Response :=
  Return (mkResponse []).

(** ** The agent's methods *)

Section Agent.

(** The values bound in an execution namespace. *)
Context {Value : Type}.
(** [open(path, 'r')] followed by [read()]. *)
Variable open_read : pystr -> Outcome pystr.
(** [litellm.completion]: the answer may depend on how many requests
    came before. *)
Variable completion : nat -> Request -> Outcome Response.
(** The interpreter behind [exec(code, globals)]: the globals it leaves
    and the exception it raises, if any. *)
Variable interp : pystr -> Namespace Value -> Namespace Value * option PyExn.

Definition litellm_completion (req : Request) : M Value Response :=
  fun s => (completion (length (calls s)) req, log_call req s).

(** [exec(code, exec_globals)]: the one dictionary bound to
    [exec_globals] is passed, and changed in place. *)
Definition py_exec (code : pystr) : M Value unit :=
  fun s =>
    let '(g', raised) := interp code (exec_globals s) in
    let s' := {| calls := calls s;
                 runs := runs s ++ [(code, exec_globals s)];
                 result := result s;
                 exec_globals := g' |} in
    match raised with
    | None => (Return tt, s')
    | Some e => (Raise e, s')
    end.

(** The exception [load_schema] raises when reading the file raised [e]. *)
Definition schema_fault (self : BaselineAgent) (e : PyExn) : PyExn :=
  if is_FileNotFoundError (exn_class e) then
    mkExn FileNotFoundError (lit "Schema file not found: " ++ schema_path self)
  else e.

(** Lines 21-27. *)
Definition load_schema (self : BaselineAgent) : M Value pystr :=
  try_except is_FileNotFoundError
    (lift (open_read (schema_path self)))
    (fun _ =>
       raise (mkExn FileNotFoundError
                (lit "Schema file not found: " ++ schema_path self))).

(** [response['choices'][0]['message']['content']] *)
Definition response_content (response : Response) : Outcome (option pystr) :=
  c <~ getitem (choices response) 0 ;;
  Return (message_content c).

(** Lines 93-97 on what line 91 read: [in] on [None] raises. *)
Definition clean_up (code : option pystr) : Outcome pystr :=
  match code with
  | Some code => extract_code code
  | None =>
      Raise (mkExn TypeError (lit "argument of type 'NoneType' is not iterable"))
  end.

Definition user_request (self : BaselineAgent) (prompt : pystr) : Request :=
  {| req_model := model self;
     req_messages := [ {| role := lit "user"; content := prompt |} ];
     req_temperature := 1 # 10 |}.

(** What the [try] block of a generation pass (lines 80-102, 179-201)
    makes of the backend's answer: the cleaned-up code, the diagnostic
    text for a fault it catches, or the exception it lets through. *)
Definition pass_result (diagnostic : pystr) (answer : Outcome Response)
    : Outcome pystr :=
  match (response <~ answer ;;
         code <~ response_content response ;;
         clean_up code) with
  | Return code => Return code
  | Raise e =>
      if is_Exception (exn_class e) then Return (diagnostic ++ exn_str e)
      else Raise e
  end.

(** Lines 29-102. *)
Definition generate_code (self : BaselineAgent) (question : pystr)
    : M Value pystr :=
  schema <- load_schema self ;;
  let prompt := analysis_prompt schema question in
  try_except is_Exception
    (response <- litellm_completion (user_request self prompt) ;;
     code <- lift (response_content response) ;;
     lift (clean_up code))
    (fun e => ret (lit "Error generating code: " ++ exn_str e)).

(** Lines 104-201. *)
Definition generate_visualization_code (self : BaselineAgent)
    (question : pystr) : M Value pystr :=
  schema <- load_schema self ;;
  let prompt := visualization_prompt schema question in
  try_except is_Exception
    (response <- litellm_completion (user_request self prompt) ;;
     code <- lift (response_content response) ;;
     lift (clean_up code))
    (fun e => ret (lit "Error generating visualization code: " ++ exn_str e)).

(** The code unit of each pass, when the schema was read and the backend
    had received [n] requests before. *)
Definition analysis_pass (self : BaselineAgent) (schema question : pystr)
    (n : nat) : Outcome pystr :=
  pass_result (lit "Error generating code: ")
    (completion n (user_request self (analysis_prompt schema question))).

Definition visualization_pass (self : BaselineAgent) (schema question : pystr)
    (n : nat) : Outcome pystr :=
  pass_result (lit "Error generating visualization code: ")
    (completion n (user_request self (visualization_prompt schema question))).

(** Lines 203-241. *)
Definition analyze (self : BaselineAgent) (question : pystr)
    (execute include_viz : bool) : M Value (gmap string pystr) :=
  code <- generate_code self question ;;
  result_bind (<["code" := code]> {["question" := question]}) ;;;
  (if include_viz then
     viz_code <- generate_visualization_code self question ;;
     result_set "viz_code" viz_code
   else ret tt) ;;;
  (if execute then
     try_except is_Exception
       (exec_globals_bind ∅ ;;;
        py_exec code ;;;
        result_set "status" (lit "success") ;;;
        if include_viz then
          viz_code <- result_get "viz_code" ;;
          py_exec viz_code
        else ret tt)
       (fun e =>
          result_set "status" (lit "error") ;;;
          result_set "error" (exn_str e))
   else ret tt) ;;;
  result_read.

End Agent.

(** ** The demo questions and the script *)

(** [demo_questions()] (lines 245-258). *)
Definition demo_questions : list pystr :=
  [ lit "What are the top 5 most expensive products?";
    lit "How many customers are there by state?";
    lit "What is the total revenue by product category?";
    lit "Which customers have made the most orders?";
    lit "What is the average order value by customer age group?";
    lit "Show the monthly sales trend";
    lit "Which product categories are most popular by customer gender?";
    lit "What is the distribution of customer ages?";
    lit "Find the top 10 customers by total spending";
    lit "Calculate the average product price by brand" ].

Section Script.

Context {Value : Type}.
Variable open_read : pystr -> Outcome pystr.
Variable completion : nat -> Request -> Outcome Response.
Variable interp : pystr -> Namespace Value -> Namespace Value * option PyExn.

(** [d[key]] on the dictionary [analyze] returned. *)
Definition dict_getitem (d : gmap string pystr) (key : string) : Outcome pystr :=
  match d !! key with
  | Some v => Return v
  | None => Raise (mkExn KeyError (lit "'" ++ lit key ++ lit "'"))
  end.

(** The script run as [__main__] (lines 261-270): the texts handed to
    [print], in order, how the script ends, and the state it leaves.
    What was printed before a raise stays printed. *)
Definition main (s : State Value)
    : list pystr * Outcome unit * State Value :=
  let agent := init default_model in
  let question := lit "What are the top 5 most expensive products?" in
  match analyze open_read completion interp agent question false false s with
  | (Raise e, s') => ([], Raise e, s')
  | (Return res, s') =>
      match dict_getitem res "question" with
      | Raise e => ([], Raise e, s')
      | Return q =>
          let printed := [lit "Question: " ++ q] in
          match dict_getitem res "code" with
          | Raise e => (printed, Raise e, s')
          | Return c =>
              (printed ++ [lit "Generated Code:
" ++ c], Return tt, s')
          end
      end
  end.

End Script.

(** * Properties *)

(** ** The string operations on sample texts *)

Example split_pieces :
  split (lit "ab") (lit "xabyabab") = [lit "x"; lit "y"; lit ""; lit ""].
Proof. reflexivity. Qed.

Example split_no_overlap : split FENCE (lit "````") = [lit ""; lit "`"].
Proof. reflexivity. Qed.

Example split_absent : split FENCE (lit "x = 1") = [lit "x = 1"].
Proof. reflexivity. Qed.

Example strip_blanks : strip (lit "  a b
 ") = lit "a b".
Proof. reflexivity. Qed.

Example extract_tagged :
  extract_code (lit "Sure:
```python
x = 1
```
Done.") = Return (lit "x = 1").
Proof. reflexivity. Qed.

Example extract_generic :
  extract_code (lit "Sure: ``` x = 1 ``` done") = Return (lit "x = 1").
Proof. reflexivity. Qed.

(** ** Substrings, cuts and splits *)

Section StringFacts.
Implicit Types sub sep s pre rest : pystr.

Lemma startswith_spec sub s :
  startswith sub s = true <-> exists r, s = sub ++ r.
Proof.
  revert s. induction sub as [|a sub IH]; intros s; simpl.
  - split; eauto.
  - destruct s as [|c s].
    + split; [discriminate | intros [r Hr]; discriminate].
    + destruct (N.eqb_spec a c) as [->|Hne].
      * rewrite IH. split; intros [r Hr]; exists r; simpl in *; congruence.
      * split; [discriminate | intros [r Hr]; simpl in Hr; congruence].
Qed.

Lemma startswith_app sub r : startswith sub (sub ++ r) = true.
Proof. apply startswith_spec. eauto. Qed.

Lemma startswith_app_l sub x y :
  length sub <= length x -> startswith sub (x ++ y) = startswith sub x.
Proof.
  revert x. induction sub as [|a sub IH]; intros x Hlen; simpl; [done|].
  destruct x as [|c x]; simpl in *; [lia|].
  destruct (N.eqb a c); [apply IH; lia | done].
Qed.

Lemma py_in_unfold sub s :
  py_in sub s =
  if startswith sub s then true
  else match s with [] => false | _ :: s' => py_in sub s' end.
Proof. destruct s; reflexivity. Qed.

Lemma cut_unfold sep s :
  cut sep s =
  if startswith sep s then Some ([], drop (length sep) s)
  else match s with
       | [] => None
       | c :: s' =>
           match cut sep s' with
           | Some (b, a) => Some (c :: b, a)
           | None => None
           end
       end.
Proof. destruct s; reflexivity. Qed.

Lemma py_in_cons_false sub c s :
  py_in sub (c :: s) = false ->
  startswith sub (c :: s) = false /\ py_in sub s = false.
Proof.
  simpl. destruct sub as [|a sub]; simpl; [discriminate|].
  destruct (N.eqb a c); [destruct (startswith sub s)|]; auto; discriminate.
Qed.

Lemma py_in_nil_l s : py_in [] s = true.
Proof. destruct s; reflexivity. Qed.

Lemma py_in_app_false sep x y :
  py_in sep (x ++ y) = false -> py_in sep x = false.
Proof.
  destruct sep as [|a sep]; [by rewrite py_in_nil_l|].
  induction x as [|c x IH]; [reflexivity|].
  intros H. change ((c :: x) ++ y) with (c :: (x ++ y)) in H.
  apply py_in_cons_false in H as [Hs Hin].
  cbn [py_in]. 
  destruct (startswith (a :: sep) (c :: x)) eqn:E; [|by apply IH].
  apply startswith_spec in E as [r Hr].
  assert (startswith (a :: sep) (c :: x ++ y) = true) as Hc.
  { apply startswith_spec. exists (r ++ y). rewrite app_assoc, <- Hr. done. }
  congruence.
Qed.


Lemma py_in_occurs sep pre rest : py_in sep (pre ++ sep ++ rest) = true.
Proof.
  induction pre as [|c pre IH]; cbn [app]; rewrite py_in_unfold.
  - by rewrite startswith_app.
  - rewrite IH. by destruct (startswith sep _).
Qed.

Lemma py_in_spec sep s :
  py_in sep s = true <-> exists pre rest, s = pre ++ sep ++ rest.
Proof.
  split.
  - induction s as [|c s IH]; rewrite py_in_unfold.
    + destruct (startswith sep []) eqn:E; [|discriminate].
      apply startswith_spec in E as [r Hr]. intros _. by exists [], r.
    + destruct (startswith sep (c :: s)) eqn:E.
      * apply startswith_spec in E as [r Hr]. intros _. by exists [], r.
      * intros H. destruct (IH H) as (pre & rest & ->). by exists (c :: pre), rest.
  - intros (pre & rest & ->). apply py_in_occurs.
Qed.

Lemma cut_None sep s : py_in sep s = false -> cut sep s = None.
Proof.
  induction s as [|c s IH]; rewrite py_in_unfold, cut_unfold.
  - by destruct (startswith sep []).
  - destruct (startswith sep (c :: s)); [discriminate|].
    intros H. by rewrite IH.
Qed.

Lemma cut_first sep pre rest :
  py_in sep (pre ++ removelast sep) = false ->
  cut sep (pre ++ sep ++ rest) = Some (pre, rest).
Proof.
  destruct (decide (sep = [])) as [->|Hsep]; [by rewrite py_in_nil_l|].
  induction pre as [|c pre IH]; intros H; rewrite cut_unfold.
  - cbn [app]. by rewrite startswith_app, drop_app_length.
  - cbn [app] in H. apply py_in_cons_false in H as [Hs Hin].
    assert (startswith sep ((c :: pre) ++ sep ++ rest) = false) as ->.
    { rewrite (app_removelast_last 0%N Hsep) at 2.
      rewrite <- !app_assoc, (app_assoc _ (removelast sep)).
      rewrite startswith_app_l; [exact Hs|].
      rewrite (app_removelast_last 0%N Hsep) at 1.
      rewrite !length_app. simpl. lia. }
    cbn [app]. by rewrite IH.
Qed.

Lemma cut_Some sep s b a : cut sep s = Some (b, a) -> s = b ++ sep ++ a.
Proof.
  assert (forall t r, t = sep ++ r -> t = [] ++ sep ++ drop (length sep) t) as Hd.
  { intros t r ->. by rewrite drop_app_length. }
  revert b. induction s as [|c s IH]; intros b; rewrite cut_unfold.
  - destruct (startswith sep []) eqn:E; [|discriminate].
    apply startswith_spec in E as [r Hr]. intros [= <- <-]. eauto.
  - destruct (startswith sep (c :: s)) eqn:E.
    + apply startswith_spec in E as [r Hr]. intros [= <- <-]. eauto.
    + destruct (cut sep s) as [[b' a']|]; [|discriminate].
      intros [= <- <-]. cbn [app]. f_equal. by apply IH.
Qed.

Lemma cut_shorter sep s b a :
  sep <> [] -> cut sep s = Some (b, a) -> length a < length s.
Proof.
  intros Hsep H. apply cut_Some in H. subst s.
  rewrite !length_app. destruct sep; [done|]. simpl. lia.
Qed.

Lemma split_rounds_agree sep n m s :
  sep <> [] -> length s <= n -> length s <= m ->
  split_rounds n sep s = split_rounds m sep s.
Proof.
  intros Hsep. revert m s.
  induction n as [|n IH]; intros [|m] s Hn Hm; simpl; try done.
  - destruct s; [|simpl in Hn; lia]. by destruct sep.
  - destruct s; [|simpl in Hm; lia]. by destruct sep.
  - destruct (cut sep s) as [[b a]|] eqn:E; [|done].
    apply cut_shorter in E; [|done]. f_equal. apply IH; lia.
Qed.

Lemma split_cut_None sep s : cut sep s = None -> split sep s = [s].
Proof. unfold split. intros H. destruct (length s); simpl; by rewrite ?H. Qed.

Lemma split_cut_Some sep s b a :
  sep <> [] -> cut sep s = Some (b, a) -> split sep s = b :: split sep a.
Proof.
  intros Hsep H. unfold split.
  destruct (length s) as [|m] eqn:Em.
  - destruct s; [|discriminate]. apply cut_Some in H. 
    destruct b; [|discriminate]. by destruct sep.
  - simpl. rewrite H. f_equal.
    apply cut_shorter in H; [|done]. apply split_rounds_agree; [done|lia..].
Qed.

Lemma cut_in sep s : py_in sep s = true -> exists b a, cut sep s = Some (b, a).
Proof.
  induction s as [|c s IH]; rewrite py_in_unfold, cut_unfold.
  - destruct (startswith sep []); [eauto | discriminate].
  - destruct (startswith sep (c :: s)); [eauto|].
    intros H. destruct (IH H) as (b & a & ->). eauto.
Qed.

Lemma before_absent sep s : py_in sep s = false -> before sep s = s.
Proof. intros H. unfold before. by rewrite cut_None. Qed.

Lemma before_first sep pre rest :
  py_in sep (pre ++ removelast sep) = false ->
  before sep (pre ++ sep ++ rest) = pre.
Proof. intros H. unfold before. by rewrite cut_first. Qed.

Lemma before_cons sep c s :
  startswith sep (c :: s) = false -> before sep (c :: s) = c :: before sep s.
Proof.
  intros H. unfold before. rewrite (cut_unfold sep (c :: s)), H.
  by destruct (cut sep s) as [[b a]|].
Qed.

Lemma before_here sep s : startswith sep s = true -> before sep s = [].
Proof. intros H. unfold before. by rewrite cut_unfold, H. Qed.

Lemma getitem_split_0 sep s :
  sep <> [] -> getitem (split sep s) 0 = Return (before sep s).
Proof.
  intros Hsep. unfold before.
  destruct (cut sep s) as [[b a]|] eqn:E.
  - by rewrite (split_cut_Some _ _ _ _ Hsep E).
  - by rewrite (split_cut_None _ _ E).
Qed.

Lemma getitem_split_1 sep s b a :
  sep <> [] -> cut sep s = Some (b, a) ->
  getitem (split sep s) 1 = Return (before sep a).
Proof.
  intros Hsep E. rewrite (split_cut_Some _ _ _ _ Hsep E).
  exact (getitem_split_0 sep a Hsep).
Qed.
End StringFacts.

Section Extraction.
Implicit Types code pre rest post : pystr.

Lemma TAG_FENCE : TAG = FENCE ++ lit "python".
Proof. reflexivity. Qed.

Lemma TAG_nonempty : TAG <> [].
Proof. discriminate. Qed.

Lemma FENCE_nonempty : FENCE <> [].
Proof. discriminate. Qed.

Lemma startswith_TAG_FENCE s :
  startswith TAG s = true -> startswith FENCE s = true.
Proof.
  rewrite !startswith_spec, TAG_FENCE. intros [r ->].
  exists (lit "python" ++ r). by rewrite <- app_assoc.
Qed.

Lemma py_in_TAG_FENCE s : py_in FENCE s = false -> py_in TAG s = false.
Proof.
  intros H. destruct (py_in TAG s) eqn:E; [|done].
  apply py_in_spec in E as (pre & rest & ->).
  rewrite TAG_FENCE, <- app_assoc, py_in_occurs in H. done.
Qed.

Lemma extract_code_tag_cut code b a :
  cut TAG code = Some (b, a) ->
  extract_code code = Return (strip (before FENCE (before TAG a))).
Proof.
  intros E. unfold extract_code.
  assert (py_in TAG code = true) as ->.
  { apply cut_Some in E as ->. apply py_in_occurs. }
  rewrite (getitem_split_1 _ _ _ _ TAG_nonempty E). cbn [obind].
  by rewrite (getitem_split_0 _ _ FENCE_nonempty).
Qed.

Lemma extract_code_fence_cut code b a :
  py_in TAG code = false -> cut FENCE code = Some (b, a) ->
  extract_code code = Return (strip (before FENCE (before FENCE a))).
Proof.
  intros Htag E. unfold extract_code. rewrite Htag.
  assert (py_in FENCE code = true) as ->.
  { apply cut_Some in E as ->. apply py_in_occurs. }
  rewrite (getitem_split_1 _ _ _ _ FENCE_nonempty E). cbn [obind].
  by rewrite (getitem_split_0 _ _ FENCE_nonempty).
Qed.

Lemma extract_code_plain code :
  py_in FENCE code = false -> extract_code code = Return code.
Proof.
  intros H. unfold extract_code. by rewrite (py_in_TAG_FENCE _ H), H.
Qed.

Lemma extract_code_total code : exists c, extract_code code = Return c.
Proof.
  destruct (py_in TAG code) eqn:Et.
  - apply cut_in in Et as (b & a & E). rewrite (extract_code_tag_cut _ _ _ E). eauto.
  - destruct (py_in FENCE code) eqn:Ef.
    + apply cut_in in Ef as (b & a & E).
      rewrite (extract_code_fence_cut _ _ _ Et E). eauto.
    + rewrite (extract_code_plain _ Ef). eauto.
Qed.

(** Claim C10.  When the first [```python] marker of the text is followed
    by no [```] marker at all, the clean-up returns everything after
    that marker, trimmed; it does not go back to the raw text.  The
    first hypothesis says that no [```python] starts inside [pre], so
    that the marker written out is the first one. *)
Theorem unterminated_tagged_fence pre rest :
  py_in TAG (pre ++ removelast TAG) = false ->
  py_in FENCE rest = false ->
  extract_code (pre ++ TAG ++ rest) = Return (strip rest).
Proof.
  intros Hfirst Hrest.
  rewrite (extract_code_tag_cut _ pre rest) by by apply cut_first.
  rewrite (before_absent TAG) by by apply py_in_TAG_FENCE.
  by rewrite before_absent.
Qed.

(** Claim C6, amended.  A text without any [```] marker is
    returned as it is: line 99 returns [code] untouched, [strip] is
    applied in the two fenced branches only. *)
Theorem no_fence_unchanged code :
  py_in FENCE code = false -> extract_code code = Return code.
Proof. apply extract_code_plain. Qed.

Lemma startswith_cons a sub s : startswith (a :: sub) (a :: s) = startswith sub s.
Proof. simpl. by rewrite N.eqb_refl. Qed.

Lemma before_TAG_shape A post :
  startswith (lit "`python") post = false ->
  startswith (lit "``python") post = false ->
  py_in FENCE (A ++ removelast FENCE) = false ->
  exists t, before TAG (A ++ FENCE ++ post) = A ++ t
            /\ (t = [] \/ startswith FENCE t = true).
Proof.
  intros H1 H2. induction A as [|c A IH]; intros HA.
  - cbn [app]. destruct (startswith TAG (FENCE ++ post)) eqn:E0.
    + exists []. by rewrite before_here; auto.
    + change (FENCE ++ post) with (96%N :: 96%N :: 96%N :: post) in *.
      rewrite before_cons by done. 
      rewrite before_cons by (change TAG with (96%N :: lit "``python"); by rewrite startswith_cons).
      rewrite before_cons by (change TAG with (96%N :: 96%N :: lit "`python"); by rewrite !startswith_cons).
      eexists. split; [reflexivity|]. right. reflexivity.
  - cbn [app] in HA. apply py_in_cons_false in HA as [Hs Hin].
    destruct (IH Hin) as (t & Ht & Hshape).
    exists t. split; [|done].
    cbn [app]. rewrite before_cons; [by rewrite Ht|].
    destruct (startswith TAG _) eqn:E; [|done].
    apply startswith_TAG_FENCE in E.
    change (c :: A ++ FENCE ++ post) with ((c :: A) ++ FENCE ++ post) in E.
    rewrite (app_removelast_last 0%N FENCE_nonempty) in E at 2.
    rewrite <- !app_assoc, (app_assoc _ (removelast FENCE)) in E.
    rewrite startswith_app_l in E; [cbn [app] in E; congruence|].
    rewrite length_app. simpl. lia.
Qed.

Lemma tagged_fence_wins pre A post :
  py_in TAG (pre ++ removelast TAG) = false ->
  py_in FENCE (A ++ removelast FENCE) = false ->
  startswith (lit "`python") post = false ->
  startswith (lit "``python") post = false ->
  extract_code (pre ++ TAG ++ A ++ FENCE ++ post) = Return (strip A).
Proof.
  intros Hfirst HA H1 H2.
  rewrite (extract_code_tag_cut _ pre (A ++ FENCE ++ post)) by by apply cut_first.
  destruct (before_TAG_shape A post H1 H2 HA) as (t & -> & [->|Ht]).
  - rewrite app_nil_r, before_absent; [done|].
    by apply py_in_app_false in HA.
  - apply startswith_spec in Ht as [r ->]. by rewrite before_first.
Qed.

Lemma generic_fence_only pre B post :
  py_in TAG (pre ++ FENCE ++ B ++ FENCE ++ post) = false ->
  py_in FENCE (pre ++ removelast FENCE) = false ->
  py_in FENCE (B ++ removelast FENCE) = false ->
  extract_code (pre ++ FENCE ++ B ++ FENCE ++ post) = Return (strip B).
Proof.
  intros Htag Hfirst HB.
  rewrite (extract_code_fence_cut _ pre (B ++ FENCE ++ post) Htag) by by apply cut_first.
  rewrite before_first by done.
  rewrite before_absent; [done|]. by apply py_in_app_false in HB.
Qed.

(** Claim C4, amended.  Let [A] be closed by the next [```] marker (no
    marker starts inside [A]).  If the text is [pre ```python A ``` post]
    with that [```python] the first one, and the closing marker is not
    run into by a later [```python] (the text after it starts neither
    with [`python] nor with [``python]), the clean-up returns [A]
    trimmed, whatever generic fenced blocks [pre] and [post] hold.  And
    a generic block [pre ``` A ``` post] is used, its first, when the
    text holds no [```python] at all. *)
Theorem fence_precedence pre A post :
  py_in FENCE (A ++ removelast FENCE) = false ->
  (py_in TAG (pre ++ removelast TAG) = false ->
   startswith (lit "`python") post = false ->
   startswith (lit "``python") post = false ->
   extract_code (pre ++ TAG ++ A ++ FENCE ++ post) = Return (strip A))
  /\ (py_in TAG (pre ++ FENCE ++ A ++ FENCE ++ post) = false ->
      py_in FENCE (pre ++ removelast FENCE) = false ->
      extract_code (pre ++ FENCE ++ A ++ FENCE ++ post) = Return (strip A)).
Proof.
  intros HA. split.
  - intros Hfirst H1 H2. by apply tagged_fence_wins.
  - intros Htag Hfirst. by apply generic_fence_only.
Qed.

End Extraction.

(** ** The agent *)

Section AgentFacts.
Context {Value : Type}.
Variable open_read : pystr -> Outcome pystr.
Variable completion : nat -> Request -> Outcome Response.
Variable interp : pystr -> Namespace Value -> Namespace Value * option PyExn.
Variable self : BaselineAgent.
Implicit Types (s : State Value) (question schema code : pystr).

Lemma load_schema_run s :
  load_schema open_read self s =
  (match open_read (schema_path self) with
   | Return schema => Return schema
   | Raise e => Raise (schema_fault self e)
   end, s).
Proof.
  unfold load_schema, try_except, lift, raise, schema_fault.
  destruct (open_read _) as [schema|e]; [done|].
  by destruct (is_FileNotFoundError _).
Qed.

Lemma try_block_run diagnostic req s :
  try_except is_Exception
    (response <- litellm_completion completion req ;;
     code <- lift (response_content response) ;;
     lift (clean_up code))
    (fun e => ret (diagnostic ++ exn_str e)) s =
  (pass_result diagnostic (completion (length (calls s)) req), log_call req s).
Proof.
  unfold try_except, bind, litellm_completion, lift, ret, pass_result.
  destruct (completion _ req) as [response|e]; cbn [obind].
  - destruct (response_content response) as [code|e]; cbn [obind].
    + destruct (clean_up code) as [c|e]; [done|].
      by destruct (is_Exception _).
    + by destruct (is_Exception _).
  - by destruct (is_Exception _).
Qed.

Lemma generate_code_run question s :
  generate_code open_read completion self question s =
  match open_read (schema_path self) with
  | Return schema =>
      (analysis_pass completion self schema question (length (calls s)),
       log_call (user_request self (analysis_prompt schema question)) s)
  | Raise e => (Raise (schema_fault self e), s)
  end.
Proof.
  unfold generate_code, bind at 1. rewrite load_schema_run.
  destruct (open_read _) as [schema|e]; [|done].
  apply try_block_run.
Qed.

Lemma generate_visualization_code_run question s :
  generate_visualization_code open_read completion self question s =
  match open_read (schema_path self) with
  | Return schema =>
      (visualization_pass completion self schema question (length (calls s)),
       log_call (user_request self (visualization_prompt schema question)) s)
  | Raise e => (Raise (schema_fault self e), s)
  end.
Proof.
  unfold generate_visualization_code, bind at 1. rewrite load_schema_run.
  destruct (open_read _) as [schema|e]; [|done].
  apply try_block_run.
Qed.


#[local] Opaque analysis_prompt visualization_prompt.

(** Claim C2.  When reading the schema file raises, [analyze] raises to
    its caller, for every [execute] and [include_viz]: the exception is
    the one [load_schema] raises, a [FileNotFoundError] with its own
    message when the file is missing and the read fault itself
    otherwise; the completion backend has received no request. *)
Theorem missing_schema_raises question execute include_viz s e :
  open_read (schema_path self) = Raise e ->
  let outcome :=
    analyze open_read completion interp self question execute include_viz s in
  fst outcome = Raise (schema_fault self e)
  /\ calls (snd outcome) = calls s
  /\ (is_FileNotFoundError (exn_class e) = true ->
      schema_fault self e =
      mkExn FileNotFoundError (lit "Schema file not found: " ++ schema_path self)).
Proof.
  intros H outcome.
  assert (outcome = (Raise (schema_fault self e), s)) as ->.
  { subst outcome. unfold analyze, bind at 1. by rewrite generate_code_run, H. }
  cbn [fst snd]. split; [done|]. split; [done|].
  unfold schema_fault. by intros ->.
Qed.

Lemma generate_code_returned question s c :
  fst (generate_code open_read completion self question s) = Return c ->
  exists schema,
    open_read (schema_path self) = Return schema
    /\ analysis_pass completion self schema question (length (calls s))
       = Return c.
Proof.
  rewrite generate_code_run.
  destruct (open_read _) as [schema|e]; [eauto | discriminate].
Qed.

Lemma generate_visualization_code_returned question s schema v :
  open_read (schema_path self) = Return schema ->
  fst (generate_visualization_code open_read completion self question
         (snd (generate_code open_read completion self question s)))
  = Return v ->
  visualization_pass completion self schema question (S (length (calls s)))
  = Return v.
Proof.
  intros Hs. rewrite generate_code_run, generate_visualization_code_run, Hs.
  cbn [fst snd log_call calls]. by rewrite length_app, Nat.add_1_r.
Qed.

(** Claim C8.  With [execute = False] and [include_viz = False] the
    returned dictionary holds the question and the code [generate_code]
    returned, and nothing else: no status, no error message, no
    visualization code. *)
Theorem plain_result question s c :
  fst (generate_code open_read completion self question s) = Return c ->
  exists r s',
    analyze open_read completion interp self question false false s
    = (Return r, s')
    /\ r !! "question" = Some question
    /\ r !! "code" = Some c
    /\ r !! "viz_code" = None
    /\ r !! "status" = None
    /\ r !! "error" = None
    /\ dom r = {["question"; "code"]}.
Proof.
  intros Hc.
  destruct (generate_code open_read completion self question s) as [o s1] eqn:E.
  cbn [fst] in Hc. subst o. eexists _, _. split.
  - unfold analyze, bind at 1. rewrite E. reflexivity.
  - repeat split; by simplify_map_eq.
Qed.

(** Claim C1.  With the schema read, when the completion call raises a
    fault [e], [analyze(question, execute=True)] returns: the code is
    the diagnostic text made from [e], and, the interpreter rejecting
    that text with a fault of a non-empty message, the status is
    ['error'] and the error message is that non-empty message. *)
Theorem analyze_resilient question s schema e g e' :
  open_read (schema_path self) = Return schema ->
  completion (length (calls s))
    (user_request self (analysis_prompt schema question)) = Raise e ->
  catchable e = true ->
  interp (lit "Error generating code: " ++ exn_str e) ∅ = (g, Some e') ->
  catchable e' = true ->
  exn_str e' <> [] ->
  exists r s',
    analyze open_read completion interp self question true false s
    = (Return r, s')
    /\ r !! "question" = Some question
    /\ r !! "code" = Some (lit "Error generating code: " ++ exn_str e)
    /\ r !! "status" = Some (lit "error")
    /\ exists msg, r !! "error" = Some msg /\ msg <> [].
Proof.
  intros Hs Hc He Hi He' Hmsg. eexists _, _. split.
  - unfold analyze, bind at 1. rewrite generate_code_run, Hs.
    unfold analysis_pass, pass_result. rewrite Hc. cbn [obind].
    unfold catchable in He. rewrite He.
    unfold bind, result_bind, ret, try_except, exec_globals_bind, py_exec.
    cbn [exec_globals log_call]. rewrite Hi.
    unfold catchable in He'. rewrite He'. reflexivity.
  - cbn [result]. repeat split; try by simplify_map_eq.
    exists (exn_str e'). split; [by simplify_map_eq | done].
Qed.


Lemma analyze_generated question execute s schema c v :
  open_read (schema_path self) = Return schema ->
  analysis_pass completion self schema question (length (calls s)) = Return c ->
  visualization_pass completion self schema question (S (length (calls s)))
  = Return v ->
  analyze open_read completion interp self question execute true s =
  ((if execute then
      try_except is_Exception
        (exec_globals_bind ∅ ;;;
         py_exec interp c ;;;
         result_set "status" (lit "success") ;;;
         viz_code <- result_get "viz_code" ;;
         py_exec interp viz_code)
        (fun e =>
           result_set "status" (lit "error") ;;;
           result_set "error" (exn_str e))
    else ret tt) ;;;
   result_read)
    {| calls := calls s ++ [user_request self (analysis_prompt schema question);
                            user_request self (visualization_prompt schema question)];
       runs := runs s;
       result := <["viz_code" := v]> (<["code" := c]> {["question" := question]});
       exec_globals := exec_globals s |}.
Proof.
  intros Hs Hc Hv. unfold analyze, bind at 1.
  rewrite generate_code_run, Hs, Hc.
  unfold bind at 1. unfold result_bind at 1.
  unfold bind at 1. unfold bind at 1.
  rewrite generate_visualization_code_run, Hs.
  cbn [log_call calls runs result exec_globals].
  rewrite length_app, Nat.add_1_r, Hv.
  unfold result_set at 1. cbn [log_call calls runs result exec_globals].
  by rewrite <- app_assoc.
Qed.

Lemma short_circuit_passes question s schema c v :
  open_read (schema_path self) = Return schema ->
  analysis_pass completion self schema question (length (calls s)) = Return c ->
  visualization_pass completion self schema question (S (length (calls s)))
  = Return v ->
  let outcome :=
    analyze open_read completion interp self question true true s in
  (forall g e, interp c ∅ = (g, Some e) ->
     runs (snd outcome) = runs s ++ [(c, ∅)]
     /\ (catchable e = true ->
         exists r, fst outcome = Return r
                   /\ r !! "status" = Some (lit "error")
                   /\ r !! "error" = Some (exn_str e)))
  /\ (forall g g', interp c ∅ = (g, None) -> interp v g = (g', None) ->
        runs (snd outcome) = runs s ++ [(c, ∅); (v, g)]
        /\ exists r, fst outcome = Return r
                     /\ r !! "status" = Some (lit "success")
                     /\ r !! "error" = None).
Proof.
  intros Hs Hc Hv outcome. subst outcome.
  rewrite (analyze_generated _ _ _ _ _ _ Hs Hc Hv).
  unfold bind, try_except, exec_globals_bind, py_exec, result_set, result_get,
    result_read.
  cbn [calls runs result exec_globals]. split.
  - intros g e Hi. rewrite Hi. unfold catchable.
    destruct (is_Exception (exn_class e)); cbn [fst snd runs]; split; try done.
    intros _. eexists. split; [reflexivity|]. by simplify_map_eq.
  - intros g g' Hi Hi'. rewrite Hi. cbn [calls runs result exec_globals].
    rewrite lookup_insert_ne by done. rewrite lookup_insert_eq.
    cbn [calls runs result exec_globals]. rewrite Hi'.
    cbn [fst snd runs]. rewrite <- app_assoc. split; [done|].
    eexists. split; [reflexivity|]. by simplify_map_eq.
Qed.

(** Claim C3.  Let [c] and [v] be the units the two generation passes
    return, and [execute = include_viz = True].  If running [c] raises,
    [v] is never run (the only [exec] is that of [c]), and for a
    runtime fault the result has status ['error'] and the fault's
    message; if both units complete, the result has status ['success']
    and no error. *)
Theorem short_circuit question s c v :
  fst (generate_code open_read completion self question s) = Return c ->
  fst (generate_visualization_code open_read completion self question
         (snd (generate_code open_read completion self question s)))
  = Return v ->
  let outcome :=
    analyze open_read completion interp self question true true s in
  (forall g e, interp c ∅ = (g, Some e) ->
     runs (snd outcome) = runs s ++ [(c, ∅)]
     /\ (catchable e = true ->
         exists r, fst outcome = Return r
                   /\ r !! "status" = Some (lit "error")
                   /\ r !! "error" = Some (exn_str e)))
  /\ (forall g g', interp c ∅ = (g, None) -> interp v g = (g', None) ->
        runs (snd outcome) = runs s ++ [(c, ∅); (v, g)]
        /\ exists r, fst outcome = Return r
                     /\ r !! "status" = Some (lit "success")
                     /\ r !! "error" = None).
Proof.
  intros Hc Hv.
  destruct (generate_code_returned _ _ _ Hc) as (schema & Hs & Hc').
  exact (short_circuit_passes question s schema c v Hs Hc'
           (generate_visualization_code_returned _ _ _ _ Hs Hv)).
Qed.

Lemma shared_namespace_passes question s schema c v :
  open_read (schema_path self) = Return schema ->
  analysis_pass completion self schema question (length (calls s)) = Return c ->
  visualization_pass completion self schema question (S (length (calls s)))
  = Return v ->
  let outcome :=
    analyze open_read completion interp self question true true s in
  runs (snd outcome) =
    runs s ++ (c, ∅) :: match interp c ∅ with
                        | (g, None) => [(v, g)]
                        | (_, Some _) => []
                        end
  /\ (forall g e, interp c ∅ = (g, Some e) -> exec_globals (snd outcome) = g)
  /\ (forall g, interp c ∅ = (g, None) ->
      exec_globals (snd outcome) = fst (interp v g)
      /\ match snd (interp v g) with
         | None =>
             exists r, fst outcome = Return r
                       /\ r !! "status" = Some (lit "success")
                       /\ r !! "error" = None
         | Some e =>
             if catchable e then
               exists r, fst outcome = Return r
                         /\ r !! "status" = Some (lit "error")
                         /\ r !! "error" = Some (exn_str e)
             else fst outcome = Raise e
         end).
Proof.
  intros Hs Hc Hv outcome. subst outcome.
  rewrite (analyze_generated _ _ _ _ _ _ Hs Hc Hv).
  unfold bind, try_except, exec_globals_bind, py_exec, result_set, result_get,
    result_read, catchable.
  cbn [calls runs result exec_globals].
  destruct (interp c ∅) as [g0 [e0|]].
  - destruct (is_Exception (exn_class e0)); cbn [fst snd runs exec_globals];
      (split; [done|]); (split; [by intros g e [= <- <-] | by intros g [=]]).
  - cbn [calls runs result exec_globals].
    rewrite lookup_insert_ne by done. rewrite lookup_insert_eq.
    cbn [calls runs result exec_globals].
    destruct (interp v g0) as [g' [e|]] eqn:Hi';
      [destruct (is_Exception (exn_class e)) eqn:He|];
      cbn [fst snd runs exec_globals]; rewrite <- app_assoc;
      (split; [done|]); (split; [by intros g e0 [=]|]);
      intros g [= <-]; rewrite Hi'; cbn [fst snd]; rewrite ?He;
      (split; [done|]); try done;
      eexists; (split; [reflexivity|]); by simplify_map_eq.
Qed.

(** Claim C5.  Let [c] and [v] be the units the two generation passes
    return, and [execute = include_viz = True].  The units are run in
    the order analysis, visualization, in one dictionary of globals:
    the analysis unit runs in the empty one, and the visualization
    unit, run only if the first completes, is the interpreter on [v] in
    the very globals [g] the analysis unit has left, bindings and all.
    What that run leaves is what [exec_globals] holds in the end, and
    whether it completes or raises decides the status of the result. *)
Theorem shared_namespace question s c v :
  fst (generate_code open_read completion self question s) = Return c ->
  fst (generate_visualization_code open_read completion self question
         (snd (generate_code open_read completion self question s)))
  = Return v ->
  let outcome :=
    analyze open_read completion interp self question true true s in
  runs (snd outcome) =
    runs s ++ (c, ∅) :: match interp c ∅ with
                        | (g, None) => [(v, g)]
                        | (_, Some _) => []
                        end
  /\ (forall g e, interp c ∅ = (g, Some e) -> exec_globals (snd outcome) = g)
  /\ (forall g, interp c ∅ = (g, None) ->
      exec_globals (snd outcome) = fst (interp v g)
      /\ match snd (interp v g) with
         | None =>
             exists r, fst outcome = Return r
                       /\ r !! "status" = Some (lit "success")
                       /\ r !! "error" = None
         | Some e =>
             if catchable e then
               exists r, fst outcome = Return r
                         /\ r !! "status" = Some (lit "error")
                         /\ r !! "error" = Some (exn_str e)
             else fst outcome = Raise e
         end).
Proof.
  intros Hc Hv.
  destruct (generate_code_returned _ _ _ Hc) as (schema & Hs & Hc').
  exact (shared_namespace_passes question s schema c v Hs Hc'
           (generate_visualization_code_returned _ _ _ _ Hs Hv)).
Qed.

(** Claim C7.  With [include_viz = True], when the completion call of
    the visualization pass raises a fault, the code of the first pass
    stays in the result as it was and [viz_code] is set, to the
    diagnostic text.  [analyze] raises only when [execute] is set and
    the executed code raises something that is no [Exception]. *)
Theorem viz_fault_keeps_code question execute s schema c e :
  open_read (schema_path self) = Return schema ->
  fst (generate_code open_read completion self question s) = Return c ->
  completion (S (length (calls s)))
    (user_request self (visualization_prompt schema question)) = Raise e ->
  catchable e = true ->
  match fst (analyze open_read completion interp self question execute true s) with
  | Return r =>
      r !! "code" = Some c
      /\ r !! "viz_code"
         = Some (lit "Error generating visualization code: " ++ exn_str e)
  | Raise e' => execute = true /\ catchable e' = false
  end.
Proof.
  intros Hs Hc Hv He.
  rewrite generate_code_run, Hs in Hc. cbn [fst] in Hc.
  assert (visualization_pass completion self schema question (S (length (calls s)))
          = Return (lit "Error generating visualization code: " ++ exn_str e)) as Hv'.
  { unfold visualization_pass, pass_result. rewrite Hv. cbn [obind].
    unfold catchable in He. by rewrite He. }
  rewrite (analyze_generated _ _ _ _ _ _ Hs Hc Hv').
  destruct execute.
  - unfold bind, try_except, exec_globals_bind, py_exec, result_set, result_get,
      result_read.
    cbn [calls runs result exec_globals].
    destruct (interp c ∅) as [g [e1|]].
    + unfold catchable. destruct (is_Exception (exn_class e1)) eqn:E1;
        cbn [fst result]; [by simplify_map_eq | done].
    + cbn [calls runs result exec_globals].
      rewrite lookup_insert_ne by done. rewrite lookup_insert_eq.
      cbn [calls runs result exec_globals].
      destruct (interp _ g) as [g' [e2|]].
      * unfold catchable. destruct (is_Exception (exn_class e2)) eqn:E2;
          cbn [fst result]; [by simplify_map_eq | done].
      * cbn [fst result]. by simplify_map_eq.
  - cbn. by simplify_map_eq.
Qed.

End AgentFacts.

(** Claim C9.  The request text of a generation pass is a function of
    the kind, the question and the schema text alone: two runs, with
    any two backends, agents and earlier histories, send the same text
    when they read the same schema and get the same question. *)
Theorem request_determinism
    {V1 V2 : Type}
    (open_read1 open_read2 : pystr -> Outcome pystr)
    (completion1 completion2 : nat -> Request -> Outcome Response)
    (self1 self2 : BaselineAgent) (s1 : State V1) (s2 : State V2)
    (schema question : pystr) :
  open_read1 (schema_path self1) = Return schema ->
  open_read2 (schema_path self2) = Return schema ->
  (exists req1 req2,
     calls (snd (generate_code open_read1 completion1 self1 question s1))
       = calls s1 ++ [req1]
     /\ calls (snd (generate_code open_read2 completion2 self2 question s2))
       = calls s2 ++ [req2]
     /\ map content (req_messages req1) = [analysis_prompt schema question]
     /\ map content (req_messages req2) = map content (req_messages req1))
  /\ (exists req1 req2,
     calls (snd (generate_visualization_code open_read1 completion1 self1 question s1))
       = calls s1 ++ [req1]
     /\ calls (snd (generate_visualization_code open_read2 completion2 self2 question s2))
       = calls s2 ++ [req2]
     /\ map content (req_messages req1) = [visualization_prompt schema question]
     /\ map content (req_messages req2) = map content (req_messages req1)).
Proof.
  intros H1 H2. split.
  - rewrite !generate_code_run, H1, H2. eexists _, _. by repeat split.
  - rewrite !generate_visualization_code_run, H1, H2. eexists _, _. by repeat split.
Qed.

(** ** More on the clean-up *)

Section CleanUpFacts.
Implicit Types sub sep s code : pystr.

Lemma before_prefix sep s : exists t, s = before sep s ++ t.
Proof.
  unfold before. destruct (cut sep s) as [[b a]|] eqn:E.
  - apply cut_Some in E. eauto.
  - exists []. by rewrite app_nil_r.
Qed.

Lemma py_in_inside sep p x q :
  py_in sep x = true -> py_in sep (p ++ x ++ q) = true.
Proof.
  rewrite !py_in_spec. intros (pre & rest & ->).
  exists (p ++ pre), (rest ++ q). by rewrite <- !app_assoc.
Qed.

Lemma py_in_outside sep p x q :
  py_in sep (p ++ x ++ q) = false -> py_in sep x = false.
Proof.
  intros H. destruct (py_in sep x) eqn:E; [|done].
  by rewrite (py_in_inside _ p _ q E) in H.
Qed.

Lemma before_no_sep sep s : sep <> [] -> py_in sep (before sep s) = false.
Proof.
  intros Hsep. induction s as [|c s IH].
  - unfold before. rewrite cut_unfold.
    destruct (startswith sep []) eqn:E; by destruct sep.
  - destruct (startswith sep (c :: s)) eqn:E.
    + rewrite before_here by done. by destruct sep.
    + rewrite before_cons by done. rewrite py_in_unfold, IH.
      destruct (startswith sep (c :: before sep s)) eqn:E'; [|done].
      apply startswith_spec in E' as [r Hr].
      destruct (before_prefix sep s) as [t Ht].
      assert (startswith sep (c :: s) = true) as Hc; [|congruence].
      apply startswith_spec. exists (r ++ t).
      rewrite app_assoc, <- Hr. cbn [app]. by rewrite <- Ht.
Qed.

Lemma lstrip_suffix s : exists p, s = p ++ lstrip s.
Proof.
  induction s as [|c s [p IH]]; [by exists []|].
  cbn [lstrip]. destruct (isspace c).
  - exists (c :: p). cbn [app]. by rewrite <- IH.
  - by exists [].
Qed.

Lemma rstrip_prefix s : exists q, s = rstrip s ++ q.
Proof.
  unfold rstrip. destruct (lstrip_suffix (rev s)) as [p Hp].
  exists (rev p). rewrite <- rev_app_distr, <- Hp. by rewrite rev_involutive.
Qed.

Lemma strip_inside s : exists p q, s = p ++ strip s ++ q.
Proof.
  unfold strip. destruct (lstrip_suffix s) as [p Hp].
  destruct (rstrip_prefix (lstrip s)) as [q Hq].
  exists p, q. by rewrite <- Hq.
Qed.

(** lstrip leaves alone a text that starts with no blank *)
Lemma lstrip_fixed s :
  match s with [] => True | c :: _ => isspace c = false end -> lstrip s = s.
Proof. destruct s as [|c s]; [done|]. cbn [lstrip]. by intros ->. Qed.

Lemma lstrip_head s :
  match lstrip s with [] => True | c :: _ => isspace c = false end.
Proof.
  induction s as [|c s IH]; [done|]. cbn [lstrip].
  by destruct (isspace c) eqn:E.
Qed.

Lemma lstrip_idem s : lstrip (lstrip s) = lstrip s.
Proof. apply lstrip_fixed, lstrip_head. Qed.

Lemma rstrip_idem s : rstrip (rstrip s) = rstrip s.
Proof. unfold rstrip. by rewrite rev_involutive, lstrip_idem. Qed.

Lemma lstrip_snoc_keep s c : isspace c = false -> exists u, lstrip (s ++ [c]) = u ++ [c].
Proof.
  intros Hc. induction s as [|d s [u IH]]; cbn [app lstrip].
  - rewrite Hc. by exists [].
  - destruct (isspace d); [eauto|]. by exists (d :: s).
Qed.

Lemma rstrip_head s :
  match s with [] => True | c :: _ => isspace c = false end ->
  match rstrip s with [] => True | c :: _ => isspace c = false end.
Proof.
  destruct s as [|c s]; [done|]. intros Hc. unfold rstrip. cbn [rev].
  destruct (lstrip_snoc_keep (rev s) c Hc) as [u ->].
  by rewrite rev_app_distr.
Qed.

Lemma strip_idem s : strip (strip s) = strip s.
Proof.
  unfold strip at 1. rewrite (lstrip_fixed (strip s)).
  - unfold strip. apply rstrip_idem.
  - unfold strip. apply rstrip_head, lstrip_head.
Qed.

(** Every outcome of the clean-up, by the branch taken. *)
Lemma extract_code_cases code :
  (py_in FENCE code = false /\ extract_code code = Return code)
  \/ (exists b a sep, (sep = TAG \/ sep = FENCE) /\ code = b ++ sep ++ a
        /\ extract_code code = Return (strip (before FENCE (before sep a)))).
Proof.
  destruct (py_in TAG code) eqn:Et.
  - right. apply cut_in in Et as (b & a & E). exists b, a, TAG.
    split; [by left|]. split; [by apply cut_Some in E|].
    by apply extract_code_tag_cut in E.
  - destruct (py_in FENCE code) eqn:Ef.
    + right. apply cut_in in Ef as (b & a & E). exists b, a, FENCE.
      split; [by right|]. split; [by apply cut_Some in E|].
      by apply extract_code_fence_cut in E.
    + left. split; [done|]. by apply extract_code_plain.
Qed.

(** The clean-up never raises: whenever a branch indexes the pieces of a
    split with [[1]] or [[0]], the piece is there. *)
Theorem extract_code_never_raises code : exists c, extract_code code = Return c.
Proof.
  destruct (extract_code_cases code) as [[_ ->]|(b & a & sep & _ & _ & ->)]; eauto.
Qed.

Lemma extract_code_result_no_fence code c :
  extract_code code = Return c -> py_in FENCE c = false.
Proof.
  destruct (extract_code_cases code) as [[Hf ->]|(b & a & sep & _ & _ & ->)].
  - by intros [= <-].
  - intros [= <-].
    destruct (strip_inside (before FENCE (before sep a))) as (p & q & Hs).
    apply (py_in_outside _ p _ q). rewrite <- Hs.
    apply before_no_sep, FENCE_nonempty.
Qed.

(** What the clean-up returns holds no [```] marker, hence no
    [```python] marker either, whatever the answer was. *)
Theorem extract_code_no_fence code c :
  extract_code code = Return c -> py_in FENCE c = false /\ py_in TAG c = false.
Proof.
  intros H. apply extract_code_result_no_fence in H.
  split; [done|]. by apply py_in_TAG_FENCE.
Qed.

(** Cleaning up a second time changes nothing. *)
Theorem extract_code_idempotent code c :
  extract_code code = Return c -> extract_code c = Return c.
Proof.
  intros H. by apply extract_code_plain, (extract_code_result_no_fence code).
Qed.

(** What the clean-up returns is a contiguous piece of the answer: it
    never adds or reorders text. *)
Theorem extract_code_substring code c :
  extract_code code = Return c -> exists pre post, code = pre ++ c ++ post.
Proof.
  destruct (extract_code_cases code) as [[Hf ->]|(b & a & sep & _ & -> & ->)].
  - intros [= <-]. exists [], []. by rewrite app_nil_r.
  - intros [= <-].
    destruct (before_prefix sep a) as [t1 H1].
    destruct (before_prefix FENCE (before sep a)) as [t2 H2].
    destruct (strip_inside (before FENCE (before sep a))) as (p & q & H3).
    exists (b ++ sep ++ p), (q ++ t2 ++ t1).
    rewrite H1 at 1. rewrite H2 at 1. rewrite H3 at 1.
    by rewrite <- !app_assoc.
Qed.

(** When the answer holds a fence marker, what the clean-up returns has
    no blank at either end. *)
Theorem extract_code_trimmed code c :
  py_in FENCE code = true -> extract_code code = Return c -> strip c = c.
Proof.
  intros Hf.
  destruct (extract_code_cases code) as [[Hn _]|(b & a & sep & _ & _ & ->)];
    [congruence|].
  intros [= <-]. apply strip_idem.
Qed.

(** An answer with one generic [```] marker that is never closed, and
    no [```python] marker: everything after the marker, trimmed. *)
Theorem unterminated_generic_fence pre rest :
  py_in TAG (pre ++ FENCE ++ rest) = false ->
  py_in FENCE (pre ++ removelast FENCE) = false ->
  py_in FENCE rest = false ->
  extract_code (pre ++ FENCE ++ rest) = Return (strip rest).
Proof.
  intros Htag Hfirst Hrest.
  rewrite (extract_code_fence_cut _ pre rest Htag) by by apply cut_first.
  rewrite (before_absent FENCE rest) by done.
  by rewrite (before_absent FENCE rest).
Qed.
End CleanUpFacts.

(** ** More on the agent and the script *)

Ltac unfold_run :=
  unfold analyze, bind, try_except, result_bind, result_set, result_get,
    result_read, exec_globals_bind, py_exec, ret in *.

Ltac step_run :=
  cbn [fst snd calls runs result exec_globals log_call] in *;
  simplify_eq;
  first
    [ rewrite generate_code_run in *
    | rewrite generate_visualization_code_run in *
    | match goal with
      | H : (Raise _, _) = (Return _, _) |- _ => discriminate H
      | H : Raise _ = Return _ |- _ => discriminate H
      | H : context [match ?x with _ => _ end] |- _ => destruct x eqn:?
      | |- context [match ?x with _ => _ end] => destruct x eqn:?
      end ].

Section MoreAgentFacts.
Context {Value : Type}.
Variable open_read : pystr -> Outcome pystr.
Variable completion : nat -> Request -> Outcome Response.
Variable interp : pystr -> Namespace Value -> Namespace Value * option PyExn.
Variable self : BaselineAgent.
Implicit Types (s : State Value) (question schema : pystr).

#[local] Opaque analysis_prompt visualization_prompt.

(** With [execute = False] no code is executed, whatever the file
    system, the backend and [include_viz] are, and whether [analyze]
    returns or raises. *)
Theorem no_exec_without_execute question include_viz s :
  runs (snd (analyze open_read completion interp self question false include_viz s))
  = runs s.
Proof.
  unfold_run. repeat step_run; by simplify_eq/=.
Qed.



Ltac is_some_hyps :=
  repeat match goal with
         | H : is_Some _ |- _ => destruct H as [? H]
         end.

Ltac map_leaf :=
  repeat split; intros; is_some_hyps; simplify_map_eq;
  try done; try (by eexists); try (by eauto).

(** The keys of a returned dictionary: [question] and [code] always,
    [viz_code] exactly when [include_viz] is set, [status] exactly when
    [execute] is set, with the value ['success'] or ['error'], [error]
    exactly when the status is ['error'], and no other key (no
    [result] key in particular). *)
Theorem result_keys question execute include_viz s r :
  fst (analyze open_read completion interp self question execute include_viz s)
  = Return r ->
  r !! "question" = Some question
  /\ is_Some (r !! "code")
  /\ (is_Some (r !! "viz_code") <-> include_viz = true)
  /\ (is_Some (r !! "status") <-> execute = true)
  /\ (is_Some (r !! "error") <-> r !! "status" = Some (lit "error"))
  /\ (r !! "status" = None \/ r !! "status" = Some (lit "success")
      \/ r !! "status" = Some (lit "error"))
  /\ dom r ⊆ {["question"; "code"; "viz_code"; "status"; "error"]}.
Proof.
  intros H. unfold_run. repeat step_run; simplify_eq/=.
  all: map_leaf.
  all: rewrite ?dom_insert_L, ?dom_singleton_L;
    repeat apply union_least; intros k ->%elem_of_singleton;
    rewrite !elem_of_union, !elem_of_singleton; tauto.
Qed.

(** A status ['success'] means that every executed unit completed: the
    analysis unit, and with [include_viz] the visualization unit, run in
    the globals the analysis unit left. *)
Theorem success_means_complete question include_viz s c r :
  fst (generate_code open_read completion self question s) = Return c ->
  fst (analyze open_read completion interp self question true include_viz s)
  = Return r ->
  r !! "status" = Some (lit "success") ->
  exists g,
    interp c ∅ = (g, None)
    /\ (include_viz = true ->
        exists v g', r !! "viz_code" = Some v /\ interp v g = (g', None)).
Proof.
  intros Hc H Hst. unfold_run. repeat step_run; simplify_eq/=.
  all: simplify_map_eq.
  all: eexists; split; [done|]; intros; simplify_map_eq; eauto.
Qed.

(** When [analyze] returns, the backend has received exactly the
    analysis request, followed with [include_viz] by the visualization
    request, each with the agent's model, one user message and the
    temperature 0.1; [execute] adds none. *)
Theorem analyze_requests question execute include_viz s r s' :
  analyze open_read completion interp self question execute include_viz s
  = (Return r, s') ->
  exists schema,
    open_read (schema_path self) = Return schema
    /\ calls s' =
       calls s ++ user_request self (analysis_prompt schema question)
               :: (if include_viz
                   then [user_request self (visualization_prompt schema question)]
                   else []).
Proof.
  intros H. unfold_run. repeat step_run; simplify_eq/=.
  all: eexists; split; [done|]; by rewrite <- ?app_assoc.
Qed.

(** [analyze(question, execute=True)] without visualization runs the
    one unit in empty globals; the result has status ['success'] and no
    error when it completes, status ['error'] and the message when it
    raises a runtime fault. *)
Theorem execute_only question s c :
  fst (generate_code open_read completion self question s) = Return c ->
  let outcome :=
    analyze open_read completion interp self question true false s in
  runs (snd outcome) = runs s ++ [(c, ∅)]
  /\ (forall g, interp c ∅ = (g, None) ->
      fst outcome
      = Return (<["status" := lit "success"]>
                  (<["code" := c]> {["question" := question]})))
  /\ (forall g e, interp c ∅ = (g, Some e) -> catchable e = true ->
      fst outcome
      = Return (<["error" := exn_str e]>
                  (<["status" := lit "error"]>
                     (<["code" := c]> {["question" := question]})))).
Proof.
  intros Hc outcome. subst outcome. unfold catchable.
  unfold_run. repeat step_run; simplify_eq/=.
  all: repeat split; intros; simplify_eq/=; try done; congruence.
Qed.

(** When the analysis unit completes and the visualization unit raises
    a runtime fault, the status ['success'] written after the first
    unit is replaced: the result has status ['error'] and the message of
    the visualization fault, and both code fields as generated. *)
Theorem viz_unit_fault question s c v g g' e :
  fst (generate_code open_read completion self question s) = Return c ->
  fst (generate_visualization_code open_read completion self question
         (snd (generate_code open_read completion self question s)))
  = Return v ->
  interp c ∅ = (g, None) ->
  interp v g = (g', Some e) ->
  catchable e = true ->
  let outcome :=
    analyze open_read completion interp self question true true s in
  runs (snd outcome) = runs s ++ [(c, ∅); (v, g)]
  /\ exists r, fst outcome = Return r
               /\ r !! "status" = Some (lit "error")
               /\ r !! "error" = Some (exn_str e)
               /\ r !! "code" = Some c
               /\ r !! "viz_code" = Some v.
Proof.
  intros Hc Hv Hi Hi' He outcome. subst outcome.
  destruct (generate_code_returned open_read completion self _ _ _ Hc)
    as (schema & Hs & Hc').
  pose proof (generate_visualization_code_returned open_read completion self
                _ _ _ _ Hs Hv) as Hv'.
  rewrite (analyze_generated open_read completion interp self _ _ _ _ _ _
             Hs Hc' Hv').
  unfold catchable in He. unfold_run.
  cbn [calls runs result exec_globals]. rewrite Hi.
  cbn [calls runs result exec_globals].
  rewrite lookup_insert_ne by done. rewrite lookup_insert_eq.
  cbn [calls runs result exec_globals]. rewrite Hi', He.
  cbn [fst snd runs]. rewrite <- app_assoc. split; [done|].
  eexists. split; [reflexivity|]. by simplify_map_eq.
Qed.

(** An exception of the executed code that is no [Exception] (an exit
    request, an interrupt) is not caught, whichever unit raises it:
    [analyze] raises it to its caller and returns no dictionary.  With
    [include_viz] the visualization pass has returned its unit [v]
    before anything is executed. *)
Theorem exit_request_propagates question include_viz s c v e :
  fst (generate_code open_read completion self question s) = Return c ->
  (include_viz = true ->
   fst (generate_visualization_code open_read completion self question
          (snd (generate_code open_read completion self question s)))
   = Return v) ->
  catchable e = false ->
  (exists g, interp c ∅ = (g, Some e))
  \/ (include_viz = true
      /\ exists g g', interp c ∅ = (g, None) /\ interp v g = (g', Some e)) ->
  fst (analyze open_read completion interp self question true include_viz s)
  = Raise e.
Proof.
  intros Hc Hv He Hcase. unfold catchable in He.
  destruct include_viz; [specialize (Hv eq_refl) | clear Hv];
    destruct Hcase as [[g Hi] | [Hviz (g & g' & Hi & Hi')]]; try discriminate;
    unfold_run; repeat step_run; simplify_eq/=; simplify_map_eq;
    try done; congruence.
Qed.

(** An exception of the completion call that is no [Exception] is not
    turned into a diagnostic text: [analyze] raises it, and no code is
    executed. *)
Theorem backend_interrupt_propagates question execute include_viz s schema e :
  open_read (schema_path self) = Return schema ->
  completion (length (calls s))
    (user_request self (analysis_prompt schema question)) = Raise e ->
  catchable e = false ->
  let outcome :=
    analyze open_read completion interp self question execute include_viz s in
  fst outcome = Raise e /\ runs (snd outcome) = runs s.
Proof.
  intros Hs Hc He outcome. unfold catchable in He.
  assert (outcome
          = (Raise e,
             log_call (user_request self (analysis_prompt schema question)) s))
    as ->; [|done].
  subst outcome. unfold analyze, bind at 1. rewrite generate_code_run, Hs.
  unfold analysis_pass, pass_result. rewrite Hc. cbn [obind]. by rewrite He.
Qed.

(** An answer without choices, or whose first choice has no text, is
    handled like a backend fault: [generate_code] returns a diagnostic
    text and does not raise. *)
Theorem malformed_answer_swallowed question s schema response :
  open_read (schema_path self) = Return schema ->
  completion (length (calls s))
    (user_request self (analysis_prompt schema question)) = Return response ->
  choices response = []
  \/ (exists rest, choices response = mkChoice None :: rest) ->
  exists msg,
    fst (generate_code open_read completion self question s)
    = Return (lit "Error generating code: " ++ msg).
Proof.
  intros Hs Hc Hbad. rewrite generate_code_run, Hs. cbn [fst].
  unfold analysis_pass, pass_result. rewrite Hc. cbn [obind].
  unfold response_content.
  destruct Hbad as [-> | [rest ->]]; cbn; eauto.
Qed.

(** A fault of the analysis pass does not stop the visualization pass:
    the code is the diagnostic text and [viz_code] is what the second
    pass generated. *)
Theorem analysis_fault_keeps_viz question s schema e v :
  open_read (schema_path self) = Return schema ->
  completion (length (calls s))
    (user_request self (analysis_prompt schema question)) = Raise e ->
  catchable e = true ->
  fst (generate_visualization_code open_read completion self question
         (snd (generate_code open_read completion self question s)))
  = Return v ->
  fst (analyze open_read completion interp self question false true s)
  = Return (<["viz_code" := v]>
              (<["code" := lit "Error generating code: " ++ exn_str e]>
                 {["question" := question]})).
Proof.
  intros Hs Hc He Hv. unfold catchable in He.
  assert (analysis_pass completion self schema question (length (calls s))
          = Return (lit "Error generating code: " ++ exn_str e)) as Hc'.
  { unfold analysis_pass, pass_result. by rewrite Hc; cbn [obind]; rewrite He. }
  pose proof (generate_visualization_code_returned open_read completion self
                _ _ _ _ Hs Hv) as Hv'.
  by rewrite (analyze_generated open_read completion interp self _ _ _ _ _ _
             Hs Hc' Hv').
Qed.

End MoreAgentFacts.

Section ScriptFacts.
Context {Value : Type}.
Variable open_read : pystr -> Outcome pystr.
Variable completion : nat -> Request -> Outcome Response.
Variable interp : pystr -> Namespace Value -> Namespace Value * option PyExn.
Implicit Types (s : State Value).

#[local] Opaque analysis_prompt visualization_prompt.


(** The script without a readable schema file: it raises what
    [load_schema] raises and prints nothing. *)
Theorem main_missing_schema s e :
  open_read (lit "../data/schema.md") = Raise e ->
  main open_read completion interp s
  = ([], Raise (schema_fault (init default_model) e), s).
Proof.
  intros H. unfold main, analyze, bind at 1. rewrite generate_code_run.
  change (schema_path (init default_model)) with (lit "../data/schema.md").
  by rewrite H.
Qed.

End ScriptFacts.

(** ** The properties on sample runs *)

(** Claim C4 as stated fails: here a generic block holds [B], the first
    tagged block holds [x = 1] up to the next closing marker, and that
    marker is followed by [`python].  [split('```python')] cuts at the
    marker made of the last three of the four backquotes, so the piece
    keeps one backquote and has no closing marker in it. *)
Lemma fence_precedence_counterexample :
  let pre := lit "``` B ``` " in
  let A := lit " x = 1 " in
  let post := lit "`python " in
  pre = FENCE ++ lit " B " ++ FENCE ++ lit " "
  /\ py_in TAG (pre ++ removelast TAG) = false
  /\ py_in FENCE (A ++ removelast FENCE) = false
  /\ extract_code (pre ++ TAG ++ A ++ FENCE ++ post) = Return (lit "x = 1 `")
  /\ extract_code (pre ++ TAG ++ A ++ FENCE ++ post) <> Return (strip A).
Proof. repeat split. discriminate. Qed.

(** [fence_precedence] on a tagged block after a generic one, and on a
    text with a generic block only. *)
Lemma fence_precedence_witness :
  extract_code (lit "``` B ``` " ++ TAG ++ lit " x = 1 " ++ FENCE ++ lit " done")
  = Return (lit "x = 1")
  /\ extract_code (lit "intro " ++ FENCE ++ lit " y = 2 " ++ FENCE ++ lit " end")
     = Return (lit "y = 2").
Proof.
  split.
  - apply (proj1 (fence_precedence (lit "``` B ``` ") (lit " x = 1 ") (lit " done")
                    eq_refl)); reflexivity.
  - apply (proj2 (fence_precedence (lit "intro ") (lit " y = 2 ") (lit " end")
                    eq_refl)); reflexivity.
Defined.

(** Claim C6 as stated fails: a text without a fence comes back with
    its leading and trailing blanks. *)
Lemma no_fence_not_trimmed :
  py_in FENCE (lit " x = 1 ") = false
  /\ extract_code (lit " x = 1 ") = Return (lit " x = 1 ")
  /\ extract_code (lit " x = 1 ") <> Return (strip (lit " x = 1 ")).
Proof. repeat split. discriminate. Qed.

(** [no_fence_unchanged] on a text with blanks around it. *)
Lemma no_fence_unchanged_witness :
  extract_code (lit " x = 1 ") = Return (lit " x = 1 ").
Proof. apply (no_fence_unchanged (lit " x = 1 ")). reflexivity. Defined.

(** [unterminated_tagged_fence] on a block that is never closed. *)
Lemma unterminated_tagged_fence_witness :
  extract_code (lit "Here: " ++ TAG ++ lit " x = 1 ") = Return (lit "x = 1").
Proof.
  apply (unterminated_tagged_fence (lit "Here: ") (lit " x = 1 ")); reflexivity.
Defined.

(** [missing_schema_raises] with no file at all, and with a file that
    may not be read. *)
Lemma missing_schema_raises_witness :
  (let outcome :=
     analyze (Value := N) empty_fs failing_backend toy_interp
       (init default_model) (lit "q") true true fresh in
   fst outcome
   = Raise (mkExn FileNotFoundError
              (lit "Schema file not found: ../data/schema.md"))
   /\ calls (snd outcome) = [])
  /\ (let outcome :=
        analyze (Value := N) locked_fs failing_backend toy_interp
          (init default_model) (lit "q") false false fresh in
      fst outcome
      = Raise (mkExn PermissionError
                 (lit "[Errno 13] Permission denied: '../data/schema.md'"))
      /\ calls (snd outcome) = []).
Proof.
  split.
  - destruct (missing_schema_raises (Value := N) empty_fs failing_backend
                toy_interp (init default_model) (lit "q") true true fresh
                (mkExn FileNotFoundError
                   (lit "[Errno 2] No such file or directory: '../data/schema.md'"))
                eq_refl) as (H1 & H2 & _).
    split; [exact H1 | exact H2].
  - destruct (missing_schema_raises (Value := N) locked_fs failing_backend
                toy_interp (init default_model) (lit "q") false false fresh
                (mkExn PermissionError
                   (lit "[Errno 13] Permission denied: '../data/schema.md'"))
                eq_refl) as (H1 & H2 & _).
    split; [exact H1 | exact H2].
Defined.

(** [plain_result] with a backend that answers a fenced block. *)
Lemma plain_result_witness :
  exists r s',
    analyze (Value := N) (schema_fs (lit "schema"))
      (scripted_backend [lit "```python x = 1 ```"]) toy_interp
      (init default_model) (lit "q") false false fresh = (Return r, s')
    /\ r !! "question" = Some (lit "q")
    /\ r !! "code" = Some (lit "x = 1")
    /\ r !! "viz_code" = None
    /\ r !! "status" = None
    /\ r !! "error" = None
    /\ dom r = {["question"; "code"]}.
Proof.
  apply (plain_result (Value := N) (schema_fs (lit "schema"))
           (scripted_backend [lit "```python x = 1 ```"]) toy_interp
           (init default_model) (lit "q") fresh (lit "x = 1"));
    reflexivity.
Defined.

(** [analyze_resilient] with a backend that is down. *)
Lemma analyze_resilient_witness :
  exists r s',
    analyze (Value := N) (schema_fs (lit "schema")) failing_backend toy_interp
      (init default_model) (lit "q") true false fresh = (Return r, s')
    /\ r !! "question" = Some (lit "q")
    /\ r !! "code" = Some (lit "Error generating code: Connection error.")
    /\ r !! "status" = Some (lit "error")
    /\ exists msg, r !! "error" = Some msg /\ msg <> [].
Proof.
  apply (analyze_resilient (Value := N) (schema_fs (lit "schema")) failing_backend
           toy_interp (init default_model) (lit "q") fresh (lit "schema")
           (mkExn (LibraryError (lit "APIConnectionError")) (lit "Connection error."))
           ∅
           (mkExn SyntaxError (lit "invalid syntax (<string>, line 1)")));
    try reflexivity.
  discriminate.
Defined.

(** [short_circuit] with a first unit the interpreter rejects. *)
Lemma short_circuit_witness :
  let outcome :=
    analyze (Value := N) (schema_fs (lit "schema"))
      (scripted_backend [lit "y = 1"; lit "x = 1"]) toy_interp
      (init default_model) (lit "q") true true fresh in
  runs (snd outcome) = [(lit "y = 1", ∅)]
  /\ exists r, fst outcome = Return r
               /\ r !! "status" = Some (lit "error")
               /\ r !! "error" = Some (lit "invalid syntax (<string>, line 1)").
Proof.
  destruct (short_circuit (Value := N) (schema_fs (lit "schema"))
              (scripted_backend [lit "y = 1"; lit "x = 1"]) toy_interp
              (init default_model) (lit "q") fresh
              (lit "y = 1") (lit "x = 1") eq_refl eq_refl) as [Hfault _].
  destruct (Hfault ∅ (mkExn SyntaxError (lit "invalid syntax (<string>, line 1)"))
              eq_refl) as [Hruns Hres].
  split; [exact Hruns | exact (Hres eq_refl)].
Defined.

(** [shared_namespace]: the second unit reads the name the first bound,
    and completes only because that name is there. *)
Lemma shared_namespace_witness :
  let outcome :=
    analyze (Value := N) (schema_fs (lit "schema"))
      (scripted_backend [lit "x = 1"; lit "print(x)"]) toy_interp
      (init default_model) (lit "q") true true fresh in
  snd (toy_interp (lit "print(x)") ∅)
  = Some (mkExn NameError (lit "name 'x' is not defined"))
  /\ runs (snd outcome)
     = [(lit "x = 1", ∅); (lit "print(x)", {[lit "x" := 1%N]})]
  /\ exec_globals (snd outcome) = {[lit "x" := 1%N]}
  /\ exists r, fst outcome = Return r
               /\ r !! "status" = Some (lit "success")
               /\ r !! "error" = None.
Proof.
  destruct (shared_namespace (Value := N) (schema_fs (lit "schema"))
              (scripted_backend [lit "x = 1"; lit "print(x)"]) toy_interp
              (init default_model) (lit "q") fresh
              (lit "x = 1") (lit "print(x)") eq_refl eq_refl)
    as (Hruns & _ & Hshare).
  destruct (Hshare {[lit "x" := 1%N]} eq_refl) as [Hglobals Hresult].
  split; [reflexivity|]. split; [exact Hruns|].
  split; [exact Hglobals | exact Hresult].
Defined.

(** [viz_fault_keeps_code] with a backend that is down at the second call. *)
Lemma viz_fault_keeps_code_witness :
  match fst (analyze (Value := N) (schema_fs (lit "schema"))
               (scripted_backend [lit "x = 1"]) toy_interp
               (init default_model) (lit "q") false true fresh) with
  | Return r =>
      r !! "code" = Some (lit "x = 1")
      /\ r !! "viz_code"
         = Some (lit "Error generating visualization code: Connection error.")
  | Raise e' => false = true /\ catchable e' = false
  end.
Proof.
  apply (viz_fault_keeps_code (Value := N) (schema_fs (lit "schema"))
           (scripted_backend [lit "x = 1"]) toy_interp
           (init default_model) (lit "q") false fresh (lit "schema") (lit "x = 1")
           (mkExn (LibraryError (lit "APIConnectionError")) (lit "Connection error.")));
    reflexivity.
Defined.

(** [request_determinism] with two backends and two model names. *)
Lemma request_determinism_witness :
  exists req1 req2,
    calls (snd (generate_code (Value := N) (schema_fs (lit "schema"))
                  failing_backend (init default_model) (lit "q") fresh))
    = [req1]
    /\ calls (snd (generate_code (Value := N) (schema_fs (lit "schema"))
                     (scripted_backend [lit "x = 1"]) (init (lit "other-model"))
                     (lit "q") fresh))
       = [req2]
    /\ map content (req_messages req1) = [analysis_prompt (lit "schema") (lit "q")]
    /\ map content (req_messages req2) = map content (req_messages req1).
Proof.
  exact (proj1 (request_determinism (V1 := N) (V2 := N)
                  (schema_fs (lit "schema")) (schema_fs (lit "schema"))
                  failing_backend (scripted_backend [lit "x = 1"])
                  (init default_model) (init (lit "other-model"))
                  fresh fresh (lit "schema") (lit "q") eq_refl eq_refl)).
Defined.

(** ** More sample runs *)

(** [extract_code_no_fence] on an answer with two blocks. *)
Lemma extract_code_no_fence_witness :
  py_in FENCE (lit "x = 1") = false /\ py_in TAG (lit "x = 1") = false.
Proof.
  apply (extract_code_no_fence
           (lit "```python x = 1 ``` and ```python y = 2 ```") (lit "x = 1")).
  reflexivity.
Defined.

(** [extract_code_idempotent] on a fenced answer. *)
Lemma extract_code_idempotent_witness :
  extract_code (lit "x = 1") = Return (lit "x = 1").
Proof.
  apply (extract_code_idempotent (lit "Sure: ``` x = 1 ``` done") (lit "x = 1")).
  reflexivity.
Defined.

(** [extract_code_substring] on a fenced answer. *)
Lemma extract_code_substring_witness :
  exists pre post, lit "Sure: ``` x = 1 ``` done" = pre ++ lit "x = 1" ++ post.
Proof.
  apply (extract_code_substring (lit "Sure: ``` x = 1 ``` done") (lit "x = 1")).
  reflexivity.
Defined.

(** [extract_code_trimmed] on a fenced answer. *)
Lemma extract_code_trimmed_witness : strip (lit "x = 1") = lit "x = 1".
Proof.
  apply (extract_code_trimmed (lit "Sure: ``` x = 1 ``` done") (lit "x = 1"));
    reflexivity.
Defined.

(** [unterminated_generic_fence] on a block that is never closed. *)
Lemma unterminated_generic_fence_witness :
  extract_code (lit "Here: " ++ FENCE ++ lit " x = 1 ") = Return (lit "x = 1").
Proof.
  apply (unterminated_generic_fence (lit "Here: ") (lit " x = 1 ")); reflexivity.
Defined.

(** [result_keys] on a run with both flags set. *)
Lemma result_keys_witness :
  let r : gmap string pystr :=
    <["status" := lit "success"]>
      (<["viz_code" := lit "print(x)"]>
         (<["code" := lit "x = 1"]> {["question" := lit "q"]})) in
  r !! "question" = Some (lit "q")
  /\ is_Some (r !! "code")
  /\ (is_Some (r !! "viz_code") <-> true = true)
  /\ (is_Some (r !! "status") <-> true = true)
  /\ (is_Some (r !! "error") <-> r !! "status" = Some (lit "error"))
  /\ (r !! "status" = None \/ r !! "status" = Some (lit "success")
      \/ r !! "status" = Some (lit "error"))
  /\ dom r ⊆ {["question"; "code"; "viz_code"; "status"; "error"]}.
Proof.
  apply (result_keys (Value := N) (schema_fs (lit "schema"))
           (scripted_backend [lit "x = 1"; lit "print(x)"]) toy_interp
           (init default_model) (lit "q") true true fresh).
  reflexivity.
Defined.

(** [success_means_complete] on a run of two units. *)
Lemma success_means_complete_witness :
  exists g,
    toy_interp (lit "x = 1") ∅ = (g, None)
    /\ (true = true ->
        exists v g',
          (<["status" := lit "success"]>
             (<["viz_code" := lit "print(x)"]>
                (<["code" := lit "x = 1"]> {["question" := lit "q"]}))
           : gmap string pystr) !! "viz_code" = Some v
          /\ toy_interp v g = (g', None)).
Proof.
  apply (success_means_complete (Value := N) (schema_fs (lit "schema"))
           (scripted_backend [lit "x = 1"; lit "print(x)"]) toy_interp
           (init default_model) (lit "q") true fresh (lit "x = 1"));
    reflexivity.
Defined.

(** [analyze_requests] on a run with visualization. *)
Lemma analyze_requests_witness :
  exists schema,
    schema_fs (lit "schema") (schema_path (init default_model)) = Return schema
    /\ calls (snd (analyze (Value := N) (schema_fs (lit "schema"))
                     (scripted_backend [lit "x = 1"; lit "print(x)"]) toy_interp
                     (init default_model) (lit "q") true true fresh))
       = calls (fresh (Value := N))
         ++ user_request (init default_model) (analysis_prompt schema (lit "q"))
         :: [user_request (init default_model)
               (visualization_prompt schema (lit "q"))].
Proof.
  apply (analyze_requests (Value := N) (schema_fs (lit "schema"))
           (scripted_backend [lit "x = 1"; lit "print(x)"]) toy_interp
           (init default_model) (lit "q") true true fresh
           (<["status" := lit "success"]>
              (<["viz_code" := lit "print(x)"]>
                 (<["code" := lit "x = 1"]> {["question" := lit "q"]})))).
  reflexivity.
Defined.

(** [execute_only] on a unit that completes. *)
Lemma execute_only_witness :
  let outcome :=
    analyze (Value := N) (schema_fs (lit "schema"))
      (scripted_backend [lit "x = 1"]) toy_interp
      (init default_model) (lit "q") true false fresh in
  runs (snd outcome) = [(lit "x = 1", ∅)]
  /\ fst outcome
     = Return (<["status" := lit "success"]>
                 (<["code" := lit "x = 1"]> {["question" := lit "q"]})).
Proof.
  destruct (execute_only (Value := N) (schema_fs (lit "schema"))
              (scripted_backend [lit "x = 1"]) toy_interp
              (init default_model) (lit "q") fresh (lit "x = 1") eq_refl)
    as (Hruns & Hok & _).
  split; [exact Hruns | exact (Hok {[lit "x" := 1%N]} eq_refl)].
Defined.

(** [viz_unit_fault] on a second unit the interpreter rejects. *)
Lemma viz_unit_fault_witness :
  let outcome :=
    analyze (Value := N) (schema_fs (lit "schema"))
      (scripted_backend [lit "x = 1"; lit "plot"]) toy_interp
      (init default_model) (lit "q") true true fresh in
  runs (snd outcome) = [(lit "x = 1", ∅); (lit "plot", {[lit "x" := 1%N]})]
  /\ exists r, fst outcome = Return r
               /\ r !! "status" = Some (lit "error")
               /\ r !! "error" = Some (lit "invalid syntax (<string>, line 1)")
               /\ r !! "code" = Some (lit "x = 1")
               /\ r !! "viz_code" = Some (lit "plot").
Proof.
  apply (viz_unit_fault (Value := N) (schema_fs (lit "schema"))
           (scripted_backend [lit "x = 1"; lit "plot"]) toy_interp
           (init default_model) (lit "q") fresh (lit "x = 1") (lit "plot")
           {[lit "x" := 1%N]} {[lit "x" := 1%N]}
           (mkExn SyntaxError (lit "invalid syntax (<string>, line 1)")));
    reflexivity.
Defined.

(** [exit_request_propagates] on an analysis unit that asks to leave,
    and on a visualization unit that does so after the analysis unit
    has completed. *)
Lemma exit_request_propagates_witness :
  fst (analyze (Value := N) (schema_fs (lit "schema"))
         (scripted_backend [lit "exit()"]) exiting_interp
         (init default_model) (lit "q") true false fresh)
  = Raise (mkExn SystemExit (lit "None"))
  /\ fst (analyze (Value := N) (schema_fs (lit "schema"))
            (scripted_backend [lit "x = 1"; lit "exit()"]) leaving_interp
            (init default_model) (lit "q") true true fresh)
     = Raise (mkExn SystemExit (lit "None")).
Proof.
  split.
  - apply (exit_request_propagates (Value := N) (schema_fs (lit "schema"))
             (scripted_backend [lit "exit()"]) exiting_interp
             (init default_model) (lit "q") false fresh (lit "exit()") []
             (mkExn SystemExit (lit "None")));
      [reflexivity | discriminate | reflexivity |].
    left. exists ∅. reflexivity.
  - apply (exit_request_propagates (Value := N) (schema_fs (lit "schema"))
             (scripted_backend [lit "x = 1"; lit "exit()"]) leaving_interp
             (init default_model) (lit "q") true fresh (lit "x = 1")
             (lit "exit()") (mkExn SystemExit (lit "None")));
      [reflexivity | reflexivity | reflexivity |].
    right. split; [reflexivity|].
    exists {[lit "x" := 1%N]}, {[lit "x" := 1%N]}. split; reflexivity.
Defined.

(** [backend_interrupt_propagates] on an interrupted call. *)
Lemma backend_interrupt_propagates_witness :
  let outcome :=
    analyze (Value := N) (schema_fs (lit "schema")) interrupted_backend
      toy_interp (init default_model) (lit "q") true true fresh in
  fst outcome = Raise (mkExn KeyboardInterrupt []) /\ runs (snd outcome) = [].
Proof.
  apply (backend_interrupt_propagates (Value := N) (schema_fs (lit "schema"))
           interrupted_backend toy_interp (init default_model) (lit "q")
           true true fresh (lit "schema") (mkExn KeyboardInterrupt []));
    reflexivity.
Defined.

(** [malformed_answer_swallowed] on an answer without choices. *)
Lemma malformed_answer_swallowed_witness :
  exists msg,
    fst (generate_code (Value := N) (schema_fs (lit "schema")) silent_backend
           (init default_model) (lit "q") fresh)
    = Return (lit "Error generating code: " ++ msg).
Proof.
  apply (malformed_answer_swallowed (Value := N) (schema_fs (lit "schema"))
           silent_backend (init default_model) (lit "q") fresh (lit "schema")
           (mkResponse [])); [reflexivity | reflexivity | by left].
Defined.

(** [analysis_fault_keeps_viz] on a backend that is down at the first
    call only. *)
Lemma analysis_fault_keeps_viz_witness :
  fst (analyze (Value := N) (schema_fs (lit "schema"))
         (fun i req => match i with
                       | O => failing_backend i req
                       | S _ => scripted_backend [lit "plot"] 0 req
                       end)
         toy_interp (init default_model) (lit "q") false true fresh)
  = Return (<["viz_code" := lit "plot"]>
              (<["code" := lit "Error generating code: Connection error."]>
                 {["question" := lit "q"]})).
Proof.
  apply (analysis_fault_keeps_viz (Value := N) (schema_fs (lit "schema")) _
           toy_interp (init default_model) (lit "q") fresh (lit "schema")
           (mkExn (LibraryError (lit "APIConnectionError")) (lit "Connection error."))
           (lit "plot")); reflexivity.
Defined.


(** [main_missing_schema] with no file at all. *)
Lemma main_missing_schema_witness :
  main (Value := N) empty_fs failing_backend toy_interp fresh
  = ([], Raise (mkExn FileNotFoundError
                  (lit "Schema file not found: ../data/schema.md")), fresh).
Proof.
  apply (main_missing_schema (Value := N) empty_fs failing_backend toy_interp
           fresh
           (mkExn FileNotFoundError
              (lit "[Errno 2] No such file or directory: '../data/schema.md'"))).
  reflexivity.
Defined.
